(** * Advanced REST API with JWT authentication: a shallow embedding

    The development follows the layout of the repository:
    - [server.js]      the application, its error-translating middleware;
    - [routes/Users.js] the authentication gate and the user-resource routes;
    - [routes/Auth.js]  registration and login;
    - [models/User.js], [models/Admin.js] the two schemas.

    Express, Mongoose, bcrypt and jsonwebtoken are external collaborators.
    Express' routing and Mongoose's queries over the user collection are
    modelled concretely; the token service, the password hash and the admin
    collection are the fields of the class [Collaborators], over which the
    application and its properties are stated. *)

From Stdlib Require Import String Ascii List ZArith NArith Lia Bool DecimalString.
Import ListNotations.

Set Warnings "-register-all".

Local Open Scope list_scope.
Local Open Scope string_scope.
Local Open Scope Z_scope.

(** ** JavaScript values *)

(** The values that travel through request bodies and response envelopes.
    Numbers are the integers; [VDate] is a [Date] object given by its epoch
    milliseconds. *)
Inductive value : Type :=
| VUndefined
| VNull
| VBool (b : bool)
| VNum (n : Z)
| VStr (s : string)
| VDate (ms : Z)
| VArr (items : list value)
| VObj (fields : list (string * value)).

(** Truthiness, as used by [!x] and [x || y]. *)
Definition truthy (v : value) : bool :=
  match v with
  | VUndefined | VNull => false
  | VBool b => b
  | VNum n => negb (n =? 0)
  | VStr s => negb (s =? "")%string
  | VDate _ | VArr _ | VObj _ => true
  end.

Fixpoint assoc {A : Type} (k : string) (l : list (string * A)) : option A :=
  match l with
  | [] => None
  | (k', v) :: l' => if (k =? k')%string then Some v else assoc k l'
  end.

(** ** Failure objects and outcomes *)

(** What the error-translating middleware reads from a thrown object:
    [err.name], [err.message] and [err.statusCode]; the last two may be
    missing. *)
Record error : Type := mkError {
  name : string;
  message : option string;
  statusCode : option Z
}.

Definition new_Error (msg : string) : error :=
  {| name := "Error"; message := Some msg; statusCode := None |}.

Definition TypeError (msg : string) : error :=
  {| name := "TypeError"; message := Some msg; statusCode := None |}.

(** [error.statusCode = c] *)
Definition set_statusCode (c : Z) (e : error) : error :=
  {| name := name e; message := message e; statusCode := Some c |}.

(** A call either returns or throws (a rejected promise, once awaited). *)
Inductive outcome (A : Type) : Type :=
| Ok (a : A)
| Throw (e : error).
Arguments Ok {A} a.
Arguments Throw {A} e.

Definition bind {A B : Type} (m : outcome A) (k : A -> outcome B) : outcome B :=
  match m with
  | Ok a => k a
  | Throw e => Throw e
  end.

Notation "x <- m ;; k" := (bind m (fun x => k))
  (at level 61, m at next level, right associativity).

(** Property read [v.k]: reading from [undefined] or [null] throws, an
    object yields the field or [undefined], any other value has no own field
    of interest here. *)
Definition prop (what : string) (v : value) (k : string) : outcome value :=
  match v with
  | VUndefined | VNull =>
      Throw (TypeError ("Cannot read properties of " ++ what))
  | VObj fields =>
      Ok (match assoc k fields with Some x => x | None => VUndefined end)
  | _ => Ok VUndefined
  end.

(** ** Responses *)

Record response : Type := mkResponse {
  status : Z;
  json : value
}.

(** ** server.js: the error-translating middleware *)

(** [err.statusCode || 500] *)
Definition statusCode_or (c : option Z) (d : Z) : Z :=
  match c with
  | Some n => if n =? 0 then d else n
  | None => d
  end.

(** [err.message || "Server Error"] *)
Definition message_or (m : option string) (d : string) : string :=
  match m with
  | Some s => if (s =? "")%string then d else s
  | None => d
  end.

Definition errorHandler (err : error) : response :=
  {| status := statusCode_or (statusCode err) 500;
     json := VObj [("success", VBool false);
                   ("error", VStr (message_or (message err) "Server Error"))] |}.

(** ** Strings *)

Definition is_upper (c : ascii) : bool :=
  ((65 <=? nat_of_ascii c) && (nat_of_ascii c <=? 90))%nat.

(** ASCII case folding, as [toLowerCase] and the [i] option of a regular
    expression perform it on ASCII letters. *)
Definition lower_ascii (c : ascii) : ascii :=
  if is_upper c then ascii_of_nat (nat_of_ascii c + 32) else c.

(** [s.toLowerCase()] on a string of ASCII characters. Strings are
    sequences of one-byte characters here; beyond ASCII, JavaScript folds
    other letters too, so the statements that depend on the stored form of a
    name or an email ask for ASCII strings ([ascii_only] below). *)
Fixpoint toLowerCase (s : string) : string :=
  match s with
  | EmptyString => EmptyString
  | String c s' => String (lower_ascii c) (toLowerCase s')
  end.

Definition is_space (c : ascii) : bool :=
  let n := nat_of_ascii c in
  ((n =? 32) || ((9 <=? n) && (n <=? 13)))%nat.

Fixpoint trimStart (s : string) : string :=
  match s with
  | String c s' => if is_space c then trimStart s' else s
  | EmptyString => EmptyString
  end.

(** [trimEnd]: a character stays when it is not a blank or when something
    stays after it. *)
Fixpoint trimEnd (s : string) : string :=
  match s with
  | EmptyString => EmptyString
  | String c s' =>
      match trimEnd s' with
      | EmptyString => if is_space c then EmptyString else String c EmptyString
      | rest => String c rest
      end
  end.

(** [s.trim()] on a string of ASCII characters: the blanks are the space
    and the characters 9 to 13. Beyond ASCII, JavaScript also strips U+00A0
    and the other Unicode white space (see [toLowerCase]). *)
Definition trim (s : string) : string := trimEnd (trimStart s).

(** [s.split(sep)] for a one-character separator. *)
Fixpoint split (sep : ascii) (s : string) : list string :=
  match s with
  | EmptyString => [EmptyString]
  | String c s' =>
      if Ascii.eqb c sep then EmptyString :: split sep s'
      else match split sep s' with
           | h :: t => String c h :: t
           | [] => [String c EmptyString]
           end
  end.

(** Decimal integers, the part of [Number(s)] this model represents; [None]
    is [NaN]. *)
Definition digit (c : ascii) : option Z :=
  let n := nat_of_ascii c in
  if ((48 <=? n) && (n <=? 57))%nat then Some (Z.of_nat n - 48) else None.

Fixpoint parse_digits (s : string) (acc : Z) : option Z :=
  match s with
  | EmptyString => Some acc
  | String c s' =>
      match digit c with
      | Some d => parse_digits s' (10 * acc + d)
      | None => None
      end
  end.

Definition Number (s : string) : option Z :=
  match s with
  | EmptyString => Some 0
  | String "-" (String c s') => option_map Z.opp (parse_digits (String c s') 0)
  | _ => parse_digits s 0
  end.

(** ** ObjectIds *)

(** An ObjectId is a 96-bit number, written as 24 hexadecimal digits. *)
Definition ObjectId : Type := N.

Definition hex_digit (c : ascii) : option N :=
  let n := nat_of_ascii c in
  if ((48 <=? n) && (n <=? 57))%nat then Some (N.of_nat (n - 48))
  else if ((97 <=? n) && (n <=? 102))%nat then Some (N.of_nat (n - 87))
  else if ((65 <=? n) && (n <=? 70))%nat then Some (N.of_nat (n - 55))
  else None.

Fixpoint parse_hex (s : string) (acc : N) : option N :=
  match s with
  | EmptyString => Some acc
  | String c s' =>
      match hex_digit c with
      | Some d => parse_hex s' (16 * acc + d)%N
      | None => None
      end
  end.

Definition hex_char (d : N) : ascii :=
  if (d <? 10)%N then ascii_of_N (48 + d) else ascii_of_N (87 + d).

Fixpoint hex_digits (k : nat) (n : N) (acc : string) : string :=
  match k with
  | O => acc
  | S k' => hex_digits k' (n / 16)%N (String (hex_char (n mod 16)%N) acc)
  end.

Definition ObjectId_toString (id : ObjectId) : string := hex_digits 24 id EmptyString.

(** Mongoose's [CastError]; the message is abridged. *)
Definition CastError (kind val path : string) : error :=
  {| name := "CastError";
     message := Some ("Cast to " ++ kind ++ " failed for value " ++ val
                      ++ " at path " ++ path);
     statusCode := None |}.

(** Mongoose's cast of a string to the [_id] path. *)
Definition castObjectId (s : string) : outcome ObjectId :=
  if (String.length s =? 24)%nat then
    match parse_hex s 0%N with
    | Some id => Ok id
    | None => Throw (CastError "ObjectId" s "_id")
    end
  else Throw (CastError "ObjectId" s "_id").

Definition ValidationError (msg : string) : error :=
  {| name := "ValidationError"; message := Some ("users validation failed: " ++ msg);
     statusCode := None |}.

(** The server's answer to an insert or update that breaks the unique index
    on [email]. *)
Definition DuplicateKeyError (email : string) : error :=
  {| name := "MongoServerError";
     message := Some ("E11000 duplicate key error collection: users index: email_1 dup key: "
                      ++ email);
     statusCode := None |}.

Definition String_of_Z (n : Z) : string := NilZero.string_of_int (Z.to_int n).

(** ** models/User.js *)

(** What of a compiled schema depends on the moment the module is evaluated:
    [default: Date.now()] is an argument of the schema literal, so the call
    is made while the literal is built and the path keeps the number. *)
Record Schema : Type := mkSchema {
  createdAt_default : Z
}.

(** [Date_now] is what [Date.now()] returns while the module loads. *)
Definition UserSchema (Date_now : Z) : Schema := {| createdAt_default := Date_now |}.

Record UserDoc : Type := mkUser {
  u_id : ObjectId;
  u_name : string;
  u_email : string;
  u_age : option Z;
  u_createdAt : Z
}.

(** [mongoose.model("users", UserSchema)] with its collection, in natural
    order, and the generator of fresh ObjectIds. *)
Record UserModel : Type := mkModel {
  schema : Schema;
  docs : list UserDoc;
  fresh : ObjectId
}.

Definition with_docs (m : UserModel) (l : list UserDoc) : UserModel :=
  {| schema := schema m; docs := l; fresh := fresh m |}.

(** The document as [res.json] receives it. *)
Definition User_toObject (u : UserDoc) : value :=
  VObj ([("_id", VStr (ObjectId_toString (u_id u)));
         ("name", VStr (u_name u));
         ("email", VStr (u_email u))]
        ++ match u_age u with Some a => [("age", VNum a)] | None => [] end
        ++ [("createdAt", VDate (u_createdAt u)); ("__v", VNum 0)])%list.

Definition opt_eqb (a b : option Z) : bool :=
  match a, b with
  | Some x, Some y => x =? y
  | None, None => true
  | _, _ => false
  end.

Definition UserDoc_eqb (a b : UserDoc) : bool :=
  (u_id a =? u_id b)%N && (u_name a =? u_name b)%string
  && (u_email a =? u_email b)%string && opt_eqb (u_age a) (u_age b)
  && (u_createdAt a =? u_createdAt b).

(** A path of a body after casting: missing, [null], or a value. *)
Inductive field (A : Type) : Type :=
| Absent
| Null
| Val (a : A).
Arguments Absent {A}.
Arguments Null {A}.
Arguments Val {A} a.

Definition field_map {A B : Type} (f : A -> B) (x : field A) : field B :=
  match x with
  | Absent => Absent
  | Null => Null
  | Val a => Val (f a)
  end.

Record UserFields : Type := mkFields {
  f_name : field string;
  f_email : field string;
  f_age : field Z;
  f_createdAt : field Z
}.

Definition castString (path : string) (v : value) : outcome (field string) :=
  match v with
  | VUndefined => Ok Absent
  | VNull => Ok Null
  | VStr s => Ok (Val s)
  | VNum n => Ok (Val (String_of_Z n))
  | VBool b => Ok (Val (if b then "true" else "false"))
  | VDate _ | VArr _ | VObj _ => Throw (CastError "string" "[object]" path)
  end.

Definition castNumber (path : string) (v : value) : outcome (field Z) :=
  match v with
  | VUndefined => Ok Absent
  | VNull => Ok Null
  | VNum n => Ok (Val n)
  | VBool b => Ok (Val (if b then 1 else 0))
  | VStr s =>
      if (s =? "")%string then Ok Null
      else match Number s with
           | Some n => Ok (Val n)
           | None => Throw (CastError "Number" s path)
           end
  | VDate _ | VArr _ | VObj _ => Throw (CastError "Number" "[object]" path)
  end.

(** ** models/Admin.js and the admin collection *)

Record AdminDoc : Type := mkAdmin {
  a_id : ObjectId;
  a_name : string;
  a_email : string;
  a_password : string;
  a_createdAt : Z
}.

Definition Admin_toObject (a : AdminDoc) : list (string * value) :=
  [("_id", VStr (ObjectId_toString (a_id a)));
   ("name", VStr (a_name a));
   ("email", VStr (a_email a));
   ("password", VStr (a_password a));
   ("createdAt", VDate (a_createdAt a));
   ("__v", VNum 0)].

(** [delete obj.k], and the rest pattern [{k, ...rest}] *)
Definition without (k : string) (fields : list (string * value)) : list (string * value) :=
  filter (fun kv => negb (fst kv =? k)%string) fields.

(** [{...obj, k: v}] *)
Definition spread_with (obj : value) (k : string) (v : value) : value :=
  match obj with
  | VObj fields => VObj (without k fields ++ [(k, v)])%list
  | _ => VObj [(k, v)]
  end.

(** ** External collaborators *)

(** What the application takes from its libraries and from its environment:
    - [Date_parse]: [Date.parse] on the strings that are not decimal numbers;
    - [pcre_i]: a regular expression with option [i], for the patterns
      outside the fragment interpreted below; compiling an ill-formed
      pattern throws;
    - [env_JWT_SECRET], [jwt_verify], [jwt_sign]: [process.env.JWT_SECRET],
      [jwt.verify(token, secret)], [jwt.sign(payload, secret, {expiresIn})];
    - [bcrypt_hash], [bcrypt_compare]: [bcrypt.hash(data, rounds)] and
      [bcrypt.compare(data, hash)];
    - [AdminStore], [Admin_findOne_email], [Admin_create]: the admin
      collection and the two queries the routes send to it,
      [Admin.findOne({email})] and [Admin.create(doc)]. *)
Class Collaborators : Type := {
  AdminStore : Type;
  Date_parse : string -> option Z;
  pcre_i : string -> outcome (string -> bool);
  env_JWT_SECRET : option string;
  jwt_verify : string -> string -> outcome value;
  jwt_sign : value -> string -> string -> outcome string;
  bcrypt_hash : value -> Z -> outcome string;
  bcrypt_compare : value -> string -> outcome bool;
  Admin_findOne_email : value -> AdminStore -> outcome (option AdminDoc);
  Admin_create : value -> AdminStore -> AdminStore * outcome AdminDoc
}.

Section Application.

Context {C : Collaborators}.

Definition castDate (path : string) (v : value) : outcome (field Z) :=
  match v with
  | VUndefined => Ok Absent
  | VNull => Ok Null
  | VNum n | VDate n => Ok (Val n)
  | VStr s =>
      match Number s with
      | Some n => Ok (Val n)
      | None => match Date_parse s with
                | Some n => Ok (Val n)
                | None => Throw (CastError "date" s path)
                end
      end
  | VBool _ | VArr _ | VObj _ => Throw (CastError "date" "[object]" path)
  end.

(** Casting the fields of a body to the paths of [UserSchema]; the setters
    [trim] (name) and [lowercase] (email) run here; other keys are dropped. *)
Definition castUser (fields : list (string * value)) : outcome UserFields :=
  let get k := match assoc k fields with Some v => v | None => VUndefined end in
  n <- castString "name" (get "name") ;;
  e <- castString "email" (get "email") ;;
  a <- castNumber "age" (get "age") ;;
  c <- castDate "createdAt" (get "createdAt") ;;
  Ok {| f_name := field_map trim n; f_email := field_map toLowerCase e;
        f_age := a; f_createdAt := c |}.

(** The validators of the schema, for the paths listed; [required] rejects
    a missing, [null] or empty string. *)
Definition required_fails (onCreate : bool) (x : field string) : bool :=
  match x with
  | Absent => onCreate
  | Null => true
  | Val s => (s =? "")%string
  end.

Definition validate (onCreate : bool) (f : UserFields) : list string :=
  ((if required_fails onCreate (f_name f) then ["name: Name is required"] else [])
   ++ (if required_fails onCreate (f_email f) then ["email: Email is required"] else [])
   ++ (match f_age f with
       | Val a => if a <? 0 then ["age: Age cannot be negative"] else []
       | _ => []
       end))%list.

Definition validated (onCreate : bool) (f : UserFields) : outcome UserFields :=
  match validate onCreate f with
  | [] => Ok f
  | msgs => Throw (ValidationError (String.concat ", " msgs))
  end.

Definition field_or {A : Type} (x : field A) (d : A) : A :=
  match x with Val a => a | _ => d end.

Definition field_opt {A : Type} (x : field A) (d : option A) : option A :=
  match x with Val a => Some a | Null => None | Absent => d end.

Definition email_taken (e : string) (except : option ObjectId) (l : list UserDoc) : bool :=
  existsb (fun u => (u_email u =? e)%string
                    && match except with
                       | Some id => negb (u_id u =? id)%N
                       | None => true
                       end) l.

(** Building a document from validated fields: the paths not given take the
    schema's defaults. The id is always the generator's: a body that brings
    its own [_id] (which Mongoose would store, failing on a duplicate) is
    outside this model, and the statements that follow the new record ask for
    a body without [_id]. *)
Definition new_doc (m : UserModel) (f : UserFields) : UserDoc :=
  {| u_id := fresh m;
     u_name := field_or (f_name f) "";
     u_email := field_or (f_email f) "";
     u_age := field_opt (f_age f) None;
     u_createdAt := field_or (f_createdAt f) (createdAt_default (schema m)) |}.

(** Inserting one document; the unique index on [email] is the store's. *)
Definition insert (f : UserFields) (m : UserModel) : UserModel * outcome UserDoc :=
  let u := new_doc m f in
  if email_taken (u_email u) None (docs m) then (m, Throw (DuplicateKeyError (u_email u)))
  else ({| schema := schema m; docs := (docs m ++ [u])%list; fresh := N.succ (fresh m) |},
        Ok u).

Definition fields_of_body (body : value) : outcome UserFields :=
  match body with
  | VObj fields => castUser fields
  | VUndefined | VNull => castUser []
  | _ => Throw {| name := "ObjectParameterError";
                  message := Some "Parameter obj to Document() must be an object";
                  statusCode := None |}
  end.

Definition save (body : value) (m : UserModel) : UserModel * outcome UserDoc :=
  match f <- fields_of_body body ;; validated true f with
  | Ok f => insert f m
  | Throw e => (m, Throw e)
  end.

(** Saving every element, keeping the first failure. *)
Fixpoint save_each (l : list value) (m : UserModel)
  : UserModel * list UserDoc * option error :=
  match l with
  | [] => (m, [], None)
  | b :: l' =>
      let '(m1, r) := save b m in
      let '(m2, saved, err) := save_each l' m1 in
      match r with
      | Ok u => (m2, u :: saved, err)
      | Throw e => (m2, saved, Some e)
      end
  end.

(** [User.create(body)]: one document for an object, one per element for an
    array. *)
Definition User_create (body : value) (m : UserModel) : UserModel * outcome value :=
  match body with
  | VArr l =>
      let '(m', saved, err) := save_each l m in
      match err with
      | Some e => (m', Throw e)
      | None => (m', Ok (VArr (map User_toObject saved)))
      end
  | _ =>
      let '(m', r) := save body m in
      (m', u <- r ;; Ok (User_toObject u))
  end.

(** [User.insertMany(body)]: every element is cast and validated before the
    first insert; the inserts then stop at the first duplicate key. *)
Fixpoint validate_all (l : list value) : outcome (list UserFields) :=
  match l with
  | [] => Ok []
  | b :: l' =>
      f <- (f <- fields_of_body b ;; validated true f) ;;
      fs <- validate_all l' ;;
      Ok (f :: fs)
  end.

Fixpoint insert_all (fs : list UserFields) (m : UserModel)
  : UserModel * outcome (list UserDoc) :=
  match fs with
  | [] => (m, Ok [])
  | f :: fs' =>
      match insert f m with
      | (m1, Ok u) =>
          let '(m2, r) := insert_all fs' m1 in
          (m2, us <- r ;; Ok (u :: us))
      | (m1, Throw e) => (m1, Throw e)
      end
  end.

Definition User_insertMany (body : value) (m : UserModel)
  : UserModel * outcome (list UserDoc) :=
  let items := match body with VArr l => l | b => [b] end in
  match validate_all items with
  | Ok fs => insert_all fs m
  | Throw e => (m, Throw e)
  end.

(** [User.find()] *)
Definition User_find (m : UserModel) : outcome (list UserDoc) := Ok (docs m).

Definition lookup (id : ObjectId) (l : list UserDoc) : option UserDoc :=
  find (fun u => (u_id u =? id)%N) l.

(** [User.findById(id)] *)
Definition User_findById (id : string) (m : UserModel) : outcome (option UserDoc) :=
  oid <- castObjectId id ;;
  Ok (lookup oid (docs m)).

(** [$set] of the listed paths on a document. *)
Definition set_fields (f : UserFields) (u : UserDoc) : UserDoc :=
  {| u_id := u_id u;
     u_name := field_or (f_name f) (u_name u);
     u_email := field_or (f_email f) (u_email u);
     u_age := field_opt (f_age f) (u_age u);
     u_createdAt := field_or (f_createdAt f) (u_createdAt u) |}.

Fixpoint replace (u' : UserDoc) (l : list UserDoc) : list UserDoc :=
  match l with
  | [] => []
  | u :: l' => if (u_id u =? u_id u')%N then u' :: l' else u :: replace u' l'
  end.

(** One [updateOne] with [$set], as the store runs it: nothing for an id
    that does not resolve, a duplicate key error when the new email is
    another document's. *)
Definition updateOne (oid : ObjectId) (f : UserFields) (m : UserModel)
  : UserModel * outcome (option (UserDoc * UserDoc)) :=
  match lookup oid (docs m) with
  | None => (m, Ok None)
  | Some u =>
      let u' := set_fields f u in
      if email_taken (u_email u') (Some oid) (docs m)
      then (m, Throw (DuplicateKeyError (u_email u')))
      else (with_docs m (replace u' (docs m)), Ok (Some (u, u')))
  end.

(** [User.findByIdAndUpdate(id, body, {new: true, runValidators: true})]:
    the filter is cast first, then the update; the update validators run on
    the paths the body lists; the updated document is returned. The body is
    read as a plain object of paths; update operators ([$set], [$unset],
    [$rename], ...) and pipelines, which the store would apply, are outside
    this model. *)
Definition User_findByIdAndUpdate (id : string) (body : value) (m : UserModel)
  : UserModel * outcome (option UserDoc) :=
  match (oid <- castObjectId id ;;
         f <- match body with
              | VObj fields => castUser fields
              | VUndefined | VNull => castUser []
              | _ => Throw (new_Error "Invalid update")
              end ;;
         f <- validated false f ;;
         Ok (oid, f)) with
  | Throw e => (m, Throw e)
  | Ok (oid, f) =>
      let '(m', r) := updateOne oid f m in
      (m', x <- r ;; Ok (option_map snd x))
  end.

(** [User.bulkWrite(operations)] for operations
    [{updateOne: {filter: {_id}, update: {$set}}}]: all operations are cast,
    then run in order up to the first error; [modifiedCount] counts the
    documents an operation changed. *)
Definition castOperation (op : value * value) : outcome (ObjectId * UserFields) :=
  let '(id, data) := op in
  oid <- match id with
         | VStr s => castObjectId s
         | _ => Throw (CastError "ObjectId" "[value]" "_id")
         end ;;
  f <- match data with
       | VObj fields => castUser fields
       | VUndefined | VNull => castUser []
       | _ => Throw (new_Error "Invalid update")
       end ;;
  Ok (oid, f).

Fixpoint castOperations (ops : list (value * value)) : outcome (list (ObjectId * UserFields)) :=
  match ops with
  | [] => Ok []
  | op :: ops' =>
      x <- castOperation op ;;
      xs <- castOperations ops' ;;
      Ok (x :: xs)
  end.

Fixpoint run_updates (ops : list (ObjectId * UserFields)) (m : UserModel) (modified : Z)
  : UserModel * outcome Z :=
  match ops with
  | [] => (m, Ok modified)
  | (oid, f) :: ops' =>
      match updateOne oid f m with
      | (m1, Throw e) => (m1, Throw e)
      | (m1, Ok None) => run_updates ops' m1 modified
      | (m1, Ok (Some (u, u'))) =>
          run_updates ops' m1 (if UserDoc_eqb u u' then modified else modified + 1)
      end
  end.

Definition User_bulkWrite (ops : list (value * value)) (m : UserModel)
  : UserModel * outcome Z :=
  match castOperations ops with
  | Throw e => (m, Throw e)
  | Ok l => run_updates l m 0
  end.

(** [User.deleteMany({_id: {$in: ids}})] *)
Fixpoint castIds (ids : list value) : outcome (list ObjectId) :=
  match ids with
  | [] => Ok []
  | v :: ids' =>
      oid <- match v with
             | VStr s => castObjectId s
             | _ => Throw (CastError "ObjectId" "[value]" "_id")
             end ;;
      oids <- castIds ids' ;;
      Ok (oid :: oids)
  end.

Definition mem (id : ObjectId) (l : list ObjectId) : bool := existsb (N.eqb id) l.

Definition User_deleteMany_in (ids : value) (m : UserModel) : UserModel * outcome Z :=
  match ids with
  | VArr l =>
      match castIds l with
      | Throw e => (m, Throw e)
      | Ok oids =>
          (with_docs m (filter (fun u => negb (mem (u_id u) oids)) (docs m)),
           Ok (Z.of_nat (List.length (filter (fun u => mem (u_id u) oids) (docs m)))))
      end
  | _ => (m, Throw {| name := "CastError"; message := Some "$in needs an array";
                      statusCode := None |})
  end.

(** [User.deleteById]: a Mongoose model has [deleteOne], [deleteMany],
    [findByIdAndDelete] and [findOneAndDelete], and [UserSchema] declares no
    statics, so this property of the model is [undefined]. *)
Definition User_deleteById
  : option (string -> UserModel -> UserModel * outcome (option UserDoc)) := None.

(** [users.countDocuments] and [users.count], for [users] the array a query
    resolves to: [countDocuments] is a method of models and queries, and an
    array has neither property. *)
Definition Array_countDocuments : option (list UserDoc -> outcome Z) := None.
Definition Array_count : option (list UserDoc -> value) := None.

(** *** Regular expressions: [{$regex: key, $options: "i"}] *)

(** The fragment interpreted here: ordinary characters and [.]; strings are
    sequences of one-byte characters. *)
Inductive atom : Type :=
| Lit (c : ascii)
| AnyChar.

Definition metachars : list ascii :=
  ["\"; "^"; "$"; "."; "|"; "?"; "*"; "+"; "("; ")"; "["; "]"; "{"; "}"]%char.

Definition is_meta (c : ascii) : bool := existsb (Ascii.eqb c) metachars.

Fixpoint atoms_of (pattern : string) : option (list atom) :=
  match pattern with
  | EmptyString => Some []
  | String c p' =>
      match atoms_of p' with
      | None => None
      | Some l =>
          if Ascii.eqb c "." then Some (AnyChar :: l)
          else if is_meta c then None
          else Some (Lit c :: l)
      end
  end.

(** One atom against one character, ignoring ASCII case; [.] takes any
    character but a line feed. *)
Definition atom_matches (a : atom) (c : ascii) : bool :=
  match a with
  | Lit x => Ascii.eqb (lower_ascii x) (lower_ascii c)
  | AnyChar => negb (Ascii.eqb c "010")
  end.

Fixpoint match_here (l : list atom) (s : string) : bool :=
  match l, s with
  | [], _ => true
  | a :: l', String c s' => atom_matches a c && match_here l' s'
  | _ :: _, EmptyString => false
  end.

(** An unanchored pattern matches when it matches at some position. *)
Fixpoint match_anywhere (l : list atom) (s : string) : bool :=
  match_here l s
  || match s with
     | String _ s' => match_anywhere l s'
     | EmptyString => false
     end.

Definition regex_i (pattern : string) : outcome (string -> bool) :=
  match atoms_of pattern with
  | Some l => Ok (match_anywhere l)
  | None => pcre_i pattern
  end.

(** [User.find({$or: [{name: {$regex: key, $options: "i"}},
                      {email: {$regex: key, $options: "i"}}]})] *)
Definition User_find_or_regex (key : string) (m : UserModel) : outcome (list UserDoc) :=
  test <- regex_i key ;;
  Ok (filter (fun u => test (u_name u) || test (u_email u)) (docs m)).

(** [User.find().skip(startIndex).limit(limit)]: [NaN] is not cast, the
    store refuses a negative skip, reads a negative limit as its absolute
    value and 0 as no limit. *)
Definition User_find_skip_limit (startIndex limit : option Z) (m : UserModel)
  : outcome (list UserDoc) :=
  match startIndex, limit with
  | Some k, Some n =>
      if k <? 0 then
        Throw {| name := "MongoServerError";
                 message := Some "Skip value must be non-negative";
                 statusCode := None |}
      else
        let rest := skipn (Z.to_nat k) (docs m) in
        Ok (if n =? 0 then rest else firstn (Z.to_nat (Z.abs n)) rest)
  | None, _ => Throw (CastError "Number" "NaN" "skip")
  | _, None => Throw (CastError "Number" "NaN" "limit")
  end.

(** [Math.ceil(total / limit)]; the quotient by 0 or [NaN] is not a finite
    number and is serialised as [null]. *)
Definition ceil_div (total : Z) (limit : option Z) : value :=
  match limit with
  | Some n => if n =? 0 then VNull else VNum (- ((- total) / n))
  | None => VNull
  end.

(** ** Requests, middleware and routing (Express) *)

Inductive verb : Type := GET | POST | PUT | DELETE | PATCH.

Definition verb_eqb (a b : verb) : bool :=
  match a, b with
  | GET, GET | POST, POST | PUT, PUT | DELETE, DELETE | PATCH, PATCH => true
  | _, _ => false
  end.

(** A request once [express.json()] and [cors] have run: [path] lists the
    decoded, non-empty segments of the URL path, [body] is the parsed JSON
    body, [query_limit] is [req.query.limit], [served_at] the time it is served. *)
Record request : Type := mkRequest {
  method : verb;
  path : list string;
  authorization : option string;
  body : value;
  query_limit : option string;
  user : value;
  served_at : Z
}.

Definition set_user (req : request) (decoded : value) : request :=
  {| method := method req; path := path req; authorization := authorization req;
     body := body req; query_limit := query_limit req; user := decoded; served_at := served_at req |}.

Record server : Type := mkServer {
  User : UserModel;
  Admin : AdminStore
}.

Definition set_User (s : server) (m : UserModel) : server :=
  {| User := m; Admin := Admin s |}.

Inductive endpoint : Type :=
| CreateUser | CreateUsersBulk | ListUsers | GetUser | UpdateUser | UpdateUsersBulk
| DeleteUser | DeleteUsersBulk | Search | Paginate | Register | Login.

(** What an observer of one request can see of the pipeline: the calls of
    [jwt.verify], the route handlers entered, the error translator. *)
Inductive event : Type :=
| Verify (token : string)
| Enter (e : endpoint)
| Translate (err : error).

(** A middleware answers, hands over with [next()], or fails with
    [next(err)]. *)
Inductive step : Type :=
| Respond (r : response)
| Next (req : request)
| NextErr (e : error).

Definition middleware : Type := request -> server -> server * list event * step.

Definition params : Type := list (string * string).

Definition param (p : params) (k : string) : string :=
  match assoc k p with Some v => v | None => EmptyString end.

(** *** routes/Users.js *)

(** [process.env.JWT_SECRET || "your-secret-key"] *)
Definition JWT_SECRET : string := message_or env_JWT_SECRET "your-secret-key".

(** [req.headers.authorization?.split(" ")[1]] *)
Definition bearer (req : request) : value :=
  match authorization req with
  | None => VUndefined
  | Some h =>
      match nth_error (split " " h) 1 with
      | Some t => VStr t
      | None => VUndefined
      end
  end.

Definition authenticate : middleware := fun req s =>
  let token := bearer req in
  let '(evs, attempt) :=
    if negb (truthy token) then
      ([], Throw (set_statusCode 401 (new_Error "Authentication required")))
    else
      match token with
      | VStr t => ([Verify t],
                   decoded <- jwt_verify t JWT_SECRET ;; Ok (set_user req decoded))
      | _ => ([], Throw (TypeError "token is not a string"))
      end in
  match attempt with
  | Ok req' => (s, evs, Next req')
  | Throw error => (s, evs, NextErr (set_statusCode 401 error))
  end.

Definition handler : Type := request -> server -> server * outcome response.

(** [asyncHandler(fn)]: a rejection of the promise goes to [next]. *)
Definition asyncHandler (e : endpoint) (fn : handler) : middleware := fun req s =>
  let '(s', r) := fn req s in
  (s', [Enter e],
   match r with
   | Ok resp => Respond resp
   | Throw err => NextErr err
   end).

Definition success (stat : Z) (fields : list (string * value)) : response :=
  {| status := stat; json := VObj (("success", VBool true) :: fields) |}.

Definition count_of {A : Type} (l : list A) : value := VNum (Z.of_nat (List.length l)).

Definition NotFound : error := set_statusCode 404 (new_Error "User not found").

Definition on_User {A : Type} (s : server) (r : UserModel * outcome A)
  : server * outcome A := (set_User s (fst r), snd r).

Definition createUser : handler := fun req s =>
  let '(s', r) := on_User s (User_create (body req) (User s)) in
  (s', user <- r ;; Ok (success 201 [("data", user)])).

Definition createUsersBulk : handler := fun req s =>
  let '(s', r) := on_User s (User_insertMany (body req) (User s)) in
  (s', users <- r ;;
       Ok (success 201 [("count", count_of users);
                        ("data", VArr (map User_toObject users))])).

Definition listUsers : handler := fun req s =>
  (s, users <- User_find (User s) ;;
      Ok (success 200 [("count", count_of users);
                       ("data", VArr (map User_toObject users))])).

Definition getUser (p : params) : handler := fun req s =>
  (s, user <- User_findById (param p "id") (User s) ;;
      match user with
      | None => Throw NotFound
      | Some u => Ok (success 200 [("data", User_toObject u)])
      end).

Definition updateUser (p : params) : handler := fun req s =>
  let '(s', r) :=
    on_User s (User_findByIdAndUpdate (param p "id") (body req) (User s)) in
  (s', user <- r ;;
       match user with
       | None => Throw NotFound
       | Some u => Ok (success 200 [("data", User_toObject u)])
       end).

(** [req.body.map((update) => ...)]: the pairs [(update.id, update.data)]. *)
Fixpoint operations_of (items : list value) : outcome (list (value * value)) :=
  match items with
  | [] => Ok []
  | update :: items' =>
      id <- prop "update" update "id" ;;
      data <- prop "update" update "data" ;;
      ops <- operations_of items' ;;
      Ok ((id, data) :: ops)
  end.

Definition updateUsersBulk : handler := fun req s =>
  match (match body req with
         | VArr items => operations_of items
         | VUndefined | VNull => Throw (TypeError "Cannot read properties of req.body")
         | _ => Throw (TypeError "req.body.map is not a function")
         end) with
  | Throw e => (s, Throw e)
  | Ok operations =>
      let '(s', r) := on_User s (User_bulkWrite operations (User s)) in
      (s', modifiedCount <- r ;; Ok (success 200 [("modified", VNum modifiedCount)]))
  end.

Definition deleteUser (p : params) : handler := fun req s =>
  match User_deleteById with
  | None => (s, Throw (TypeError "User.deleteById is not a function"))
  | Some deleteById =>
      let '(s', r) := on_User s (deleteById (param p "id") (User s)) in
      (s', user <- r ;;
           match user with
           | None => Throw NotFound
           | Some _ => Ok (success 200 [("data", VObj [])])
           end)
  end.

Definition deleteUsersBulk : handler := fun req s =>
  match prop "req.body" (body req) "ids" with
  | Throw e => (s, Throw e)
  | Ok ids =>
      let '(s', r) := on_User s (User_deleteMany_in ids (User s)) in
      (s', deletedCount <- r ;; Ok (success 200 [("deleted", VNum deletedCount)]))
  end.

Definition search (p : params) : handler := fun req s =>
  let searchKey := param p "key" in
  (s, users <- User_find_or_regex searchKey (User s) ;;
      Ok (success 200 [("count", count_of users);
                       ("data", VArr (map User_toObject users))])).

Definition paginate (p : params) : handler := fun req s =>
  let page := Number (param p "page") in
  let limit := match query_limit req with Some l => Number l | None => None end in
  let startIndex :=
    match page, limit with
    | Some pg, Some l => Some ((pg - 1) * l)
    | _, _ => None
    end in
  (s, users <- User_find_skip_limit startIndex limit (User s) ;;
      match Array_countDocuments with
      | None => Throw (TypeError "users.countDocuments is not a function")
      | Some countDocuments =>
          total <- countDocuments users ;;
          Ok (success 200
                [("count", match Array_count with
                           | Some count => count users
                           | None => VUndefined
                           end);
                 ("pagination", VObj [("current", VStr (param p "page"));
                                      ("pages", ceil_div total limit);
                                      ("total", VNum total)]);
                 ("data", VArr (map User_toObject users))])
      end).

(** *** routes/Auth.js *)

Definition on_Admin {A : Type} (s : server) (r : AdminStore * outcome A)
  : server * outcome A := ({| User := User s; Admin := fst r |}, snd r).

Definition token_for (admin : AdminDoc) : outcome string :=
  jwt_sign (VObj [("id", VStr (ObjectId_toString (a_id admin)))]) JWT_SECRET "24h".

Definition register : handler := fun req s =>
  match (password <- prop "req.body" (body req) "password" ;;
         bcrypt_hash password 12) with
  | Throw e => (s, Throw e)
  | Ok hashedPassword =>
      let '(s', r) :=
        on_Admin s (Admin_create (spread_with (body req) "password" (VStr hashedPassword))
                                 (Admin s)) in
      (s', admin <- r ;;
           token <- token_for admin ;;
           let responseAdmin := without "password" (Admin_toObject admin) in
           Ok (success 201 [("data", VObj responseAdmin); ("token", VStr token)]))
  end.

Definition BadRequest : response :=
  {| status := 400;
     json := VObj [("success", VBool false);
                   ("message", VStr "Email and Password are required")] |}.

Definition InvalidCredential : response :=
  {| status := 401;
     json := VObj [("success", VBool false);
                   ("message", VStr "Invalid Email or Password")] |}.

Definition login : handler := fun req s =>
  (s, email <- prop "req.body" (body req) "email" ;;
      password <- prop "req.body" (body req) "password" ;;
      if negb (truthy email) || negb (truthy password) then Ok BadRequest
      else
        admin <- Admin_findOne_email email (Admin s) ;;
        match admin with
        | None => Ok InvalidCredential
        | Some admin =>
            isMatch <- bcrypt_compare password (a_password admin) ;;
            if negb isMatch then Ok InvalidCredential
            else
              token <- token_for admin ;;
              let adminData := without "password" (Admin_toObject admin) in
              Ok (success 200 [("message", VStr "Login Successful");
                               ("data", VObj adminData);
                               ("token", VStr token)])
        end).

(** *** Routers *)

Inductive segment : Type :=
| Static (s : string)
| Param (name : string).

(** A route: verb, path pattern, whether [authenticate] stands before the
    handler, and the handler. *)
Record route : Type := mkRoute {
  r_verb : verb;
  r_path : list segment;
  r_guarded : bool;
  r_endpoint : endpoint
}.

(** The routes of routes/Users.js, in the order of their registration. *)
Definition userRoutes : list route :=
  [ mkRoute POST [Static "users"] true CreateUser;
    mkRoute POST [Static "users"; Static "bulk"] true CreateUsersBulk;
    mkRoute GET [Static "users"] true ListUsers;
    mkRoute GET [Static "users"; Param "id"] true GetUser;
    mkRoute PUT [Static "users"; Param "id"] true UpdateUser;
    mkRoute PUT [Static "users"; Static "bulk"] true UpdateUsersBulk;
    mkRoute DELETE [Static "users"; Param "id"] true DeleteUser;
    mkRoute DELETE [Static "users"; Static "bulk"] true DeleteUsersBulk;
    mkRoute GET [Static "search"; Param "key"] true Search;
    mkRoute GET [Static "users"; Static "page"; Param "page"] true Paginate ].

(** The routes of routes/Auth.js. *)
Definition authRoutes : list route :=
  [ mkRoute POST [Static "register"] false Register;
    mkRoute POST [Static "login"] false Login ].

(** A pattern against the segments of a path: a static segment is compared
    without regard to case, a parameter takes one segment. *)
Fixpoint match_path (pattern : list segment) (p : list string) : option params :=
  match pattern, p with
  | [], [] => Some []
  | Static s :: pattern', x :: p' =>
      if (toLowerCase s =? toLowerCase x)%string then match_path pattern' p' else None
  | Param k :: pattern', x :: p' =>
      if (x =? "")%string then None
      else option_map (cons (k, x)) (match_path pattern' p')
  | _, _ => None
  end.

Definition matches (rt : route) (v : verb) (p : list string) : option params :=
  if verb_eqb (r_verb rt) v then match_path (r_path rt) p else None.

Definition handler_of (e : endpoint) (p : params) : handler :=
  match e with
  | CreateUser => createUser
  | CreateUsersBulk => createUsersBulk
  | ListUsers => listUsers
  | GetUser => getUser p
  | UpdateUser => updateUser p
  | UpdateUsersBulk => updateUsersBulk
  | DeleteUser => deleteUser p
  | DeleteUsersBulk => deleteUsersBulk
  | Search => search p
  | Paginate => paginate p
  | Register => register
  | Login => login
  end.

Definition stack (rt : route) (p : params) : list middleware :=
  ((if r_guarded rt then [authenticate] else [])
   ++ [asyncHandler (r_endpoint rt) (handler_of (r_endpoint rt) p)])%list.

(** The handlers of a route, one after the other while they call [next()]. *)
Fixpoint run (chain : list middleware) (req : request) (s : server)
  : server * list event * step :=
  match chain with
  | [] => (s, [], Next req)
  | mw :: chain' =>
      match mw req s with
      | (s1, evs, Next req1) =>
          let '(s2, evs', st) := run chain' req1 s1 in
          (s2, (evs ++ evs')%list, st)
      | other => other
      end
  end.

(** A router: the first route that matches verb and path runs; the
    following ones are tried only if its handlers all call [next()]. *)
Fixpoint dispatch (routes : list route) (p : list string) (req : request) (s : server)
  : server * list event * step :=
  match routes with
  | [] => (s, [], Next req)
  | rt :: routes' =>
      match matches rt (method req) p with
      | None => dispatch routes' p req s
      | Some ps =>
          match run (stack rt ps) req s with
          | (s1, evs, Next req1) =>
              let '(s2, evs', st) := dispatch routes' p req1 s1 in
              (s2, (evs ++ evs')%list, st)
          | other => other
          end
      end
  end.

(** *** server.js *)

(** Express' own answer when nothing handled the request. *)
Definition unhandled : response := {| status := 404; json := VUndefined |}.

(** [app.use("/api/", userRoutes, authRoutes)] followed by
    [app.use(errorHandler)]. *)
Definition app (req : request) (s : server) : server * list event * response :=
  match path req with
  | mount :: p =>
      if (toLowerCase mount =? "api")%string then
        match dispatch (userRoutes ++ authRoutes) p req s with
        | (s', evs, Respond r) => (s', evs, r)
        | (s', evs, NextErr err) => (s', (evs ++ [Translate err])%list, errorHandler err)
        | (s', evs, Next _) => (s', evs, unhandled)
        end
      else (s, [], unhandled)
  | [] => (s, [], unhandled)
  end.

(** ** Vocabulary of the statements *)

(** The route a request is dispatched to: the first one, in registration
    order, whose verb and pattern match. *)
Fixpoint first_match (routes : list route) (v : verb) (p : list string)
  : option (route * params) :=
  match routes with
  | [] => None
  | rt :: routes' =>
      match matches rt v p with
      | Some ps => Some (rt, ps)
      | None => first_match routes' v p
      end
  end.

Definition routed (req : request) : option (route * params) :=
  match path req with
  | mount :: p =>
      if (toLowerCase mount =? "api")%string
      then first_match (userRoutes ++ authRoutes) (method req) p
      else None
  | [] => None
  end.

(** The failure the gate raises for a missing token, as it reaches the
    error translator. *)
Definition AuthenticationRequired : error :=
  set_statusCode 401 (set_statusCode 401 (new_Error "Authentication required")).

Fixpoint has_char (c : ascii) (s : string) : bool :=
  match s with
  | EmptyString => false
  | String x s' => Ascii.eqb x c || has_char c s'
  end.

(** A request that carries a token the verifier accepts. *)
Definition authenticated (req : request) (t : string) (decoded : value) : Prop :=
  bearer req = VStr t /\ t <> EmptyString /\ jwt_verify t JWT_SECRET = Ok decoded.




(** The same request without its [Authorization] header. *)
Definition without_authorization (req : request) : request :=
  {| method := method req; path := path req; authorization := None;
     body := body req; query_limit := query_limit req; user := user req;
     served_at := served_at req |}.

Definition is_login (req : request) : Prop :=
  method req = POST /\ path req = ["api"; "login"].

(** The request passes the presence check of the login handler. *)
Definition supplies (req : request) (email password : value) : Prop :=
  prop "req.body" (body req) "email" = Ok email /\
  prop "req.body" (body req) "password" = Ok password /\
  truthy email = true /\ truthy password = true.

(** The two ways a login that supplies both fields can fail. *)
Definition unknown_email (req : request) (s : server) : Prop :=
  exists email password,
    supplies req email password /\
    Admin_findOne_email email (Admin s) = Ok None.

Definition wrong_password (req : request) (s : server) : Prop :=
  exists email password admin,
    supplies req email password /\
    Admin_findOne_email email (Admin s) = Ok (Some admin) /\
    bcrypt_compare password (a_password admin) = Ok false.

(** The two single-item routes that stand before the bulk routes. *)
Definition DeleteOneRoute : route := mkRoute DELETE [Static "users"; Param "id"] true DeleteUser.
Definition UpdateOneRoute : route := mkRoute PUT [Static "users"; Param "id"] true UpdateUser.


End Application.

(** * A concrete instance *)

(** Collaborators simple enough to evaluate: a verifier that accepts the
    token "good" and calls "old" expired, a hash that prefixes its input,
    an admin collection kept as a list. *)
Definition demo_Date_parse (_ : string) : option Z := None.

Definition demo_pcre_i (_ : string) : outcome (string -> bool) :=
  Throw {| name := "MongoServerError"; message := Some "Regular expression is invalid";
           statusCode := None |}.

Definition TokenExpiredError : error :=
  {| name := "TokenExpiredError"; message := Some "jwt expired"; statusCode := None |}.

Definition JsonWebTokenError : error :=
  {| name := "JsonWebTokenError"; message := Some "invalid signature"; statusCode := None |}.

Definition demo_verify (token secret : string) : outcome value :=
  if (token =? "good")%string then Ok (VObj [("id", VStr "000000000000000000000007")])
  else if (token =? "old")%string then Throw TokenExpiredError
  else Throw JsonWebTokenError.

Definition demo_sign (_ : value) (_ _ : string) : outcome string := Ok "signed".

Definition demo_hash (data : value) (_ : Z) : outcome string :=
  match data with
  | VStr s => Ok ("hash:" ++ s)
  | _ => Throw (new_Error "data and salt arguments required")
  end.

(** Like bcrypt, the comparison rejects data that is not a string. *)
Definition demo_compare (data : value) (hash : string) : outcome bool :=
  match data with
  | VStr s => Ok ("hash:" ++ s =? hash)%string
  | _ => Throw (new_Error "data must be a string or Buffer and hash must be a string")
  end.

Definition demo_findOne (email : value) (admins : list AdminDoc) : outcome (option AdminDoc) :=
  match email with
  | VStr e => Ok (find (fun a => (a_email a =? toLowerCase e)%string) admins)
  | _ => Ok None
  end.

Definition demo_create (body : value) (admins : list AdminDoc)
  : list AdminDoc * outcome AdminDoc :=
  match body with
  | VObj fields =>
      match assoc "name" fields, assoc "email" fields, assoc "password" fields with
      | Some (VStr n), Some (VStr e), Some (VStr p) =>
          let a := {| a_id := N.of_nat (List.length admins); a_name := trim n;
                      a_email := toLowerCase e; a_password := p; a_createdAt := 1000 |} in
          ((admins ++ [a])%list, Ok a)
      | _, _, _ => (admins, Throw (ValidationError "admin validation failed"))
      end
  | _ => (admins, Throw (ValidationError "admin validation failed"))
  end.

Definition demo : Collaborators :=
  {| AdminStore := list AdminDoc;
     Date_parse := demo_Date_parse;
     pcre_i := demo_pcre_i;
     env_JWT_SECRET := None;
     jwt_verify := demo_verify;
     jwt_sign := demo_sign;
     bcrypt_hash := demo_hash;
     bcrypt_compare := demo_compare;
     Admin_findOne_email := demo_findOne;
     Admin_create := demo_create |}.

Definition demo_app (req : request) (s : @server demo)
  : @server demo * list event * response :=
  @app demo req s.

Definition bob : UserDoc :=
  {| u_id := 1%N; u_name := "Bob"; u_email := "b@x.com"; u_age := None;
     u_createdAt := 1000 |}.

Definition root : AdminDoc :=
  {| a_id := 7%N; a_name := "Root"; a_email := "root@x.com";
     a_password := "hash:secret1"; a_createdAt := 1000 |}.

(** The server whose models were loaded at time 1000, holding one user and
    one admin. *)
Definition demo_server : @server demo :=
  @mkServer demo {| schema := UserSchema 1000; docs := [bob]; fresh := 2%N |} [root].

Definition request_of (v : verb) (p : list string) (auth : option string) (b : value)
  : request :=
  {| method := v; path := p; authorization := auth; body := b;
     query_limit := Some "10"; user := VUndefined; served_at := 2000 |}.

Definition credentials (email password : string) : value :=
  VObj [("email", VStr email); ("password", VStr password)].

(** The requests at which the properties are evaluated. *)
Definition bob_id : string := "000000000000000000000001".

Definition delete_bulk_request : request :=
  request_of DELETE ["api"; "users"; "bulk"] (Some "Bearer good")
             (VObj [("ids", VArr [VStr bob_id])]).

Definition update_bulk_request : request :=
  request_of PUT ["api"; "users"; "bulk"] (Some "Bearer good")
             (VArr [VObj [("id", VStr bob_id); ("data", VObj [("name", VStr "Robert")])]]).

Definition delete_bob_request : request :=
  request_of DELETE ["api"; "users"; bob_id] (Some "Bearer good") VUndefined.

Definition get_bob_request : request :=
  request_of GET ["api"; "users"; bob_id] (Some "Bearer good") VUndefined.

Definition page_request : request :=
  request_of GET ["api"; "users"; "page"; "1"] (Some "Bearer good") VUndefined.

Definition search_request (key : string) : request :=
  request_of GET ["api"; "search"; key] (Some "Bearer good") VUndefined.

Definition create_request (served : Z) (name email : string) : request :=
  {| method := POST; path := ["api"; "users"]; authorization := Some "Bearer good";
     body := VObj [("name", VStr name); ("email", VStr email)];
     query_limit := None; user := VUndefined; served_at := served |}.

Definition ann : UserDoc :=
  {| u_id := 2%N; u_name := "Ann"; u_email := "ann@x.com"; u_age := None;
     u_createdAt := 1000 |}.

Definition demo_users_with_ann : UserModel :=
  {| schema := UserSchema 1000; docs := [bob; ann]; fresh := 3%N |}.

Definition good_token_payload : value := VObj [("id", VStr "000000000000000000000007")].

(** * Vocabulary of the further properties *)

(** ObjectIds are 96-bit numbers. *)
Definition ObjectId_bound : N := (16 ^ 24)%N.

(** The state of the user collection that the store maintains: ids below
    the generator and pairwise distinct, emails pairwise distinct and in
    lower case. *)
Record well_formed (m : UserModel) : Prop := mkWellFormed {
  ids_below_fresh : forall u, In u (docs m) -> (u_id u < fresh m)%N;
  ids_distinct : NoDup (map u_id (docs m));
  emails_distinct : NoDup (map u_email (docs m));
  emails_lowercase : forall u, In u (docs m) -> toLowerCase (u_email u) = u_email u
}.

(** The email of cast fields is in lower case. *)
Definition lowercase_email (f : UserFields) : Prop :=
  toLowerCase (field_or (f_email f) "") = field_or (f_email f) "".

(** The ids of [m'] are those of [m], in the same order, followed by ids
    of records added since. *)
Definition ids_extend (m m' : UserModel) : Prop :=
  exists added, map u_id (docs m') = (map u_id (docs m) ++ added)%list.

(** The instance above with a signer that issues the token the verifier
    accepts. *)
Definition issuing_demo : Collaborators :=
  {| AdminStore := list AdminDoc;
     Date_parse := demo_Date_parse;
     pcre_i := demo_pcre_i;
     env_JWT_SECRET := None;
     jwt_verify := demo_verify;
     jwt_sign := fun _ _ _ => Ok "good";
     bcrypt_hash := demo_hash;
     bcrypt_compare := demo_compare;
     Admin_findOne_email := demo_findOne;
     Admin_create := demo_create |}.

Definition issuing_server : @server issuing_demo :=
  @mkServer issuing_demo {| schema := UserSchema 1000; docs := [bob]; fresh := 2%N |} [root].

(** A record with another name. *)
Definition renamed (u : UserDoc) (n : string) : UserDoc :=
  {| u_id := u_id u; u_name := n; u_email := u_email u; u_age := u_age u;
     u_createdAt := u_createdAt u |}.

(** Further requests at which the properties are evaluated. *)
Definition login_request (b : value) : request :=
  request_of POST ["api"; "login"] None b.

Definition register_request (b : value) : request :=
  request_of POST ["api"; "register"] None b.

Definition put_user_request (id : string) (b : value) : request :=
  request_of PUT ["api"; "users"; id] (Some "Bearer good") b.

Definition get_user_request (id : string) : request :=
  request_of GET ["api"; "users"; id] (Some "Bearer good") VUndefined.

Definition bulk_create_request (items : list value) : request :=
  request_of POST ["api"; "users"; "bulk"] (Some "Bearer good") (VArr items).

Definition list_request (header : string) : request :=
  request_of GET ["api"; "users"] (Some header) VUndefined.

Definition eve : AdminDoc :=
  {| a_id := 1%N; a_name := "Eve"; a_email := "eve@x.com";
     a_password := "hash:secret9"; a_createdAt := 1000 |}.

(** Strings of ASCII characters: on them [trim] and [toLowerCase] are
    [String.prototype.trim] and [String.prototype.toLowerCase]. *)
Fixpoint ascii_only (s : string) : bool :=
  match s with
  | EmptyString => true
  | String c s' => (nat_of_ascii c <? 128)%nat && ascii_only s'
  end.

(** The bodies this model reads as the store does: objects, or arrays of
    objects, with no [_id] key, no update operator (a key that starts with a
    dollar sign), scalar values, ASCII strings, and for [age] an integer or
    [null]. *)
Definition plain_field (kv : string * value) : bool :=
  let '(k, v) := kv in
  negb (k =? "_id")%string
  && match k with
     | String "$" _ => false
     | _ => true
     end
  && (if (k =? "age")%string
      then match v with VNum _ | VNull => true | _ => false end
      else match v with
           | VStr x => ascii_only x
           | VNum _ | VBool _ | VNull => true
           | _ => false
           end).

Definition plain_object (b : value) : bool :=
  match b with
  | VObj fields => forallb plain_field fields
  | _ => true
  end.

Definition modelled_body (b : value) : bool :=
  match b with
  | VArr items => forallb plain_object items
  | _ => plain_object b
  end.

(** Serving requests one after the other. *)
Fixpoint serve {C : Collaborators} (reqs : list request) (s : server) : server :=
  match reqs with
  | [] => s
  | req :: reqs' => serve reqs' (fst (fst (app req s)))
  end.

(** The concrete server with no admin, and the one with two users. *)
Definition demo_server_without_admins : @server demo :=
  @mkServer demo {| schema := UserSchema 1000; docs := [bob]; fresh := 2%N |} [].

Definition demo_server_with_ann : @server demo :=
  @mkServer demo demo_users_with_ann [root].

(** * Properties *)

Section Properties.

Context {C : Collaborators}.

(** ** The error translator *)

Lemma statusCode_or_carried (c d : Z) : c <> 0 -> statusCode_or (Some c) d = c.
Proof.
  intros Hc. unfold statusCode_or.
  destruct (Z.eqb_spec c 0) as [E | _]; [contradiction | reflexivity].
Qed.

Lemma message_or_carried (m d : string) : m <> "" -> message_or (Some m) d = m.
Proof.
  intros Hm. unfold message_or.
  destruct (String.eqb_spec m "") as [E | _]; [contradiction | reflexivity].
Qed.

(** C6. Whatever failure object reaches [errorHandler], the body is an
    envelope with exactly the two fields [success] and [error], [success] is
    [false], [error] is the failure's message when it carries one, and the
    HTTP status is the carried status code, or 500 when none is carried.
    (JavaScript's [||] reads the code 0 and the empty message as not
    carried.) *)
Theorem errorHandler_envelope (err : error) :
  (exists text, json (errorHandler err) =
                VObj [("success", VBool false); ("error", VStr text)]) /\
  (forall m, message err = Some m -> m <> "" ->
     json (errorHandler err) = VObj [("success", VBool false); ("error", VStr m)]) /\
  (forall c, statusCode err = Some c -> c <> 0 -> status (errorHandler err) = c) /\
  (statusCode err = None -> status (errorHandler err) = 500).
Proof.
  unfold errorHandler; cbn [json status].
  repeat split.
  - eexists; reflexivity.
  - intros m Hm Hne. rewrite Hm, message_or_carried by assumption. reflexivity.
  - intros c Hc Hne. rewrite Hc. now apply statusCode_or_carried.
  - intros Hc. rewrite Hc. reflexivity.
Qed.

Lemma errorHandler_401 (e : error) : status (errorHandler (set_statusCode 401 e)) = 401.
Proof. reflexivity. Qed.

(** ** Routing *)

(** The last handler of every route is wrapped by [asyncHandler] and so
    never calls [next()]. *)
Lemma stack_never_next (rt : route) (ps : params) (req : request) (s : server) :
  forall s' evs req', run (stack rt ps) req s <> (s', evs, Next req').
Proof.
  intros s' evs req'. unfold stack.
  destruct (r_guarded rt); cbn [app List.app run].
  - destruct (authenticate req s) as [[s1 evs1] [r | req1 | e]]; try discriminate.
    unfold asyncHandler.
    destruct (handler_of (r_endpoint rt) ps req1 s1) as [s2 [resp | err]]; discriminate.
  - unfold asyncHandler.
    destruct (handler_of (r_endpoint rt) ps req s) as [s2 [resp | err]]; discriminate.
Qed.

Lemma dispatch_first_match (routes : list route) (p : list string) (req : request)
      (s : server) (rt : route) (ps : params) :
  first_match routes (method req) p = Some (rt, ps) ->
  dispatch routes p req s = run (stack rt ps) req s.
Proof.
  induction routes as [| r routes IH]; cbn [first_match dispatch]; [discriminate |].
  destruct (matches r (method req) p) as [ps0 |]; [| exact IH].
  intros [= -> ->].
  pose proof (stack_never_next rt ps req s) as Hn.
  destruct (run (stack rt ps) req s) as [[s1 evs] [resp | req1 | e]]; try reflexivity.
  exfalso. exact (Hn _ _ _ eq_refl).
Qed.

Lemma app_routed (req : request) (s : server) (rt : route) (ps : params) :
  routed req = Some (rt, ps) ->
  app req s =
  match run (stack rt ps) req s with
  | (s', evs, Respond r) => (s', evs, r)
  | (s', evs, NextErr err) => (s', (evs ++ [Translate err])%list, errorHandler err)
  | (s', evs, Next _) => (s', evs, unhandled)
  end.
Proof.
  unfold routed, app.
  destruct (path req) as [| mount p]; [discriminate |].
  destruct (toLowerCase mount =? "api")%string; [| discriminate].
  intros H. now rewrite (dispatch_first_match _ _ _ s _ _ H).
Qed.

Lemma userRoutes_guarded (rt : route) : In rt userRoutes -> r_guarded rt = true.
Proof.
  unfold userRoutes. cbn [In].
  intros H; repeat (destruct H as [<- | H]; [reflexivity |]); contradiction.
Qed.

(** A request the gate rejects ends in the error translator, with the
    store as it was and no handler entered. *)
Lemma app_rejected (req : request) (s : server) (rt : route) (ps : params)
      (evs : list event) (e : error) :
  routed req = Some (rt, ps) -> In rt userRoutes ->
  authenticate req s = (s, evs, NextErr e) ->
  app req s = (s, (evs ++ [Translate e])%list, errorHandler e).
Proof.
  intros Hr Hin Ha. rewrite (app_routed _ _ _ _ Hr).
  unfold stack. rewrite (userRoutes_guarded _ Hin). cbn [List.app run].
  rewrite Ha. reflexivity.
Qed.

(** A request the gate lets through reaches the handler of its route. *)
Lemma app_accepted (req : request) (s : server) (rt : route) (ps : params)
      (t : string) (decoded : value) :
  routed req = Some (rt, ps) -> In rt userRoutes -> authenticated req t decoded ->
  app req s =
  match handler_of (r_endpoint rt) ps (set_user req decoded) s with
  | (s', Ok r) => (s', [Verify t; Enter (r_endpoint rt)], r)
  | (s', Throw err) =>
      (s', [Verify t; Enter (r_endpoint rt); Translate err], errorHandler err)
  end.
Proof.
  intros Hr Hin (Hb & Ht & Hv). rewrite (app_routed _ _ _ _ Hr).
  unfold stack. rewrite (userRoutes_guarded _ Hin). cbn [List.app run].
  unfold authenticate. rewrite Hb. cbn [truthy negb].
  destruct (String.eqb_spec t "") as [E | _]; [contradiction |].
  cbn [negb]. rewrite Hv. cbn [bind]. unfold asyncHandler.
  destruct (handler_of (r_endpoint rt) ps (set_user req decoded) s) as [s' [r | err]];
    reflexivity.
Qed.

(** ** The authentication gate *)

Lemma authenticate_no_token (req : request) (s : server) :
  truthy (bearer req) = false ->
  authenticate req s = (s, [], NextErr AuthenticationRequired).
Proof.
  intros H. unfold authenticate. rewrite H. reflexivity.
Qed.

Lemma authenticate_bad_token (req : request) (s : server) (t : string) (e : error) :
  bearer req = VStr t -> t <> "" -> jwt_verify t JWT_SECRET = Throw e ->
  authenticate req s = (s, [Verify t], NextErr (set_statusCode 401 e)).
Proof.
  intros Hb Ht Hv. unfold authenticate. rewrite Hb. cbn [truthy].
  destruct (String.eqb_spec t "") as [E | _]; [contradiction |].
  cbn [negb]. rewrite Hv. reflexivity.
Qed.

(** C2. On every route of the user router: without an [Authorization]
    header the answer is 401 with the error "Authentication required"; with
    a token the verifier refuses (expired, bad signature, malformed) the
    answer is 401 with the verifier's error. In both cases the store is
    untouched and no handler is entered: the trace holds no [Enter]. *)
Theorem gate_rejects_before_handler (req : request) (s : server)
        (rt : route) (ps : params) :
  routed req = Some (rt, ps) -> In rt userRoutes ->
  (authorization req = None ->
   app req s =
   (s, [Translate AuthenticationRequired],
    {| status := 401;
       json := VObj [("success", VBool false);
                     ("error", VStr "Authentication required")] |}))
  /\
  (forall t e,
      bearer req = VStr t -> t <> "" -> jwt_verify t JWT_SECRET = Throw e ->
      app req s =
      (s, [Verify t; Translate (set_statusCode 401 e)],
       {| status := 401;
          json := VObj [("success", VBool false);
                        ("error", VStr (message_or (message e) "Server Error"))] |})).
Proof.
  intros Hr Hin. split.
  - intros Hh.
    apply (app_rejected _ _ _ _ [] AuthenticationRequired Hr Hin).
    apply authenticate_no_token. unfold bearer. now rewrite Hh.
  - intros t e Hb Ht Hv.
    apply (app_rejected _ _ _ _ [Verify t] (set_statusCode 401 e) Hr Hin).
    now apply authenticate_bad_token.
Qed.

Lemma split_without_separator (sep : ascii) (s : string) :
  has_char sep s = false -> split sep s = [s].
Proof.
  induction s as [| c s IH]; cbn [has_char split]; [reflexivity |].
  intros H. apply orb_false_iff in H as [Hc Hs].
  rewrite Hc, (IH Hs). reflexivity.
Qed.

Lemma routed_without_authorization (req : request) :
  routed (without_authorization req) = routed req.
Proof. reflexivity. Qed.

(** C10. On every route of the user router, a header with no blank in it
    (the bare word "Bearer", a raw token) has no second part: the gate
    answers 401 "Authentication required", exactly as for the same request
    without the header, and the trace holds no [Verify]: the verifier is
    not called. *)
Theorem header_without_second_part_is_no_token (req : request) (s : server)
        (rt : route) (ps : params) (h : string) :
  routed req = Some (rt, ps) -> In rt userRoutes ->
  authorization req = Some h -> has_char " " h = false ->
  app req s =
  (s, [Translate AuthenticationRequired],
   {| status := 401;
      json := VObj [("success", VBool false);
                    ("error", VStr "Authentication required")] |})
  /\ app req s = app (without_authorization req) s.
Proof.
  intros Hr Hin Hh Hsp.
  assert (Hreq : app req s = (s, ([] ++ [Translate AuthenticationRequired])%list,
                              errorHandler AuthenticationRequired)).
  { apply (app_rejected _ _ _ _ [] AuthenticationRequired Hr Hin).
    apply authenticate_no_token. unfold bearer.
    rewrite Hh, (split_without_separator _ _ Hsp). reflexivity. }
  split; [exact Hreq |].
  rewrite Hreq. symmetry.
  apply (app_rejected _ _ rt ps [] AuthenticationRequired).
  - now rewrite routed_without_authorization.
  - exact Hin.
  - apply authenticate_no_token. reflexivity.
Qed.

(** ** Login *)

Lemma login_unknown_email (req : request) (s : server) :
  unknown_email req s -> login req s = (s, Ok InvalidCredential).
Proof.
  intros (email & password & (He & Hp & Te & Tp) & Hf).
  unfold login. rewrite He, Hp. cbn [bind]. rewrite Te, Tp. cbn [negb orb].
  rewrite Hf. reflexivity.
Qed.

Lemma login_wrong_password (req : request) (s : server) :
  wrong_password req s -> login req s = (s, Ok InvalidCredential).
Proof.
  intros (email & password & admin & (He & Hp & Te & Tp) & Hf & Hc).
  unfold login. rewrite He, Hp. cbn [bind]. rewrite Te, Tp. cbn [negb orb].
  rewrite Hf. cbn [bind]. rewrite Hc. reflexivity.
Qed.

Lemma app_login (req : request) (s : server) :
  is_login req ->
  app req s =
  match login req s with
  | (s', Ok r) => (s', [Enter Login], r)
  | (s', Throw err) => (s', [Enter Login; Translate err], errorHandler err)
  end.
Proof.
  intros [Hm Hp].
  assert (Hr : routed req = Some (mkRoute POST [Static "login"] false Login, [])).
  { unfold routed. rewrite Hp, Hm. reflexivity. }
  rewrite (app_routed _ _ _ _ Hr).
  unfold stack. cbn [r_guarded r_endpoint List.app run handler_of]. unfold asyncHandler.
  destruct (login req s) as [s' [r | err]]; reflexivity.
Qed.

(** What the login handler does achieve: a login whose email matches no
    admin and a login whose email matches but whose password comparison
    answers [false] receive the same response: status 401 with the message
    "Invalid Email or Password". The observable trace is the same too. (Both
    requests supply an email and a password; a request that omits one is
    answered 400 before any lookup.) *)
Theorem login_failures_indistinguishable (req1 req2 : request) (s1 s2 : server) :
  is_login req1 -> is_login req2 ->
  unknown_email req1 s1 -> wrong_password req2 s2 ->
  app req1 s1 = (s1, [Enter Login], InvalidCredential) /\
  app req2 s2 = (s2, [Enter Login], InvalidCredential) /\
  status InvalidCredential = 401 /\
  json InvalidCredential =
    VObj [("success", VBool false); ("message", VStr "Invalid Email or Password")].
Proof.
  intros L1 L2 U W.
  rewrite (app_login _ _ L1), (app_login _ _ L2).
  rewrite (login_unknown_email _ _ U), (login_wrong_password _ _ W).
  repeat split.
Qed.

(** The same holds without asking that both fields be supplied: one request
    sent to a store that does not know its email and to a store that knows
    it but refuses the password is answered alike. *)
Lemma login_same_request_two_stores (req : request) (s1 s2 : server) :
  is_login req ->
  (forall email, prop "req.body" (body req) "email" = Ok email ->
                 Admin_findOne_email email (Admin s1) = Ok None) ->
  (forall email password,
      prop "req.body" (body req) "email" = Ok email ->
      prop "req.body" (body req) "password" = Ok password ->
      exists admin, Admin_findOne_email email (Admin s2) = Ok (Some admin) /\
                    bcrypt_compare password (a_password admin) = Ok false) ->
  snd (app req s1) = snd (app req s2) /\
  snd (fst (app req s1)) = snd (fst (app req s2)).
Proof.
  intros L H1 H2. rewrite !(app_login _ _ L). unfold login.
  destruct (prop "req.body" (body req) "email") as [email | e] eqn:He;
    cbn [bind]; [| split; reflexivity].
  destruct (prop "req.body" (body req) "password") as [password | e] eqn:Hp;
    cbn [bind]; [| split; reflexivity].
  destruct (negb (truthy email) || negb (truthy password)); [split; reflexivity |].
  rewrite (H1 _ eq_refl).
  destruct (H2 _ _ eq_refl eq_refl) as (admin & Hf & Hc).
  rewrite Hf. cbn [bind]. rewrite Hc. split; reflexivity.
Qed.

(** C1, on the code. The login handler does distinguish an unknown email
    from a known one when the password comparison throws instead of
    answering, as bcrypt does for a password that is not a string: the same
    request is answered 401 "Invalid Email or Password" by a store that does
    not know the email, and by the error translator, with status 500, by a
    store that knows it. *)
Theorem login_reveals_known_email_when_comparison_throws
        (req : request) (s_unknown s_known : server)
        (email password : value) (admin : AdminDoc) (e : error) :
  is_login req -> supplies req email password ->
  Admin_findOne_email email (Admin s_unknown) = Ok None ->
  Admin_findOne_email email (Admin s_known) = Ok (Some admin) ->
  bcrypt_compare password (a_password admin) = Throw e ->
  statusCode e = None ->
  app req s_unknown = (s_unknown, [Enter Login], InvalidCredential) /\
  app req s_known = (s_known, [Enter Login; Translate e], errorHandler e) /\
  status (snd (app req s_unknown)) = 401 /\
  status (snd (app req s_known)) = 500.
Proof.
  intros L Hs Hu Hk Hc He.
  assert (E1 : app req s_unknown = (s_unknown, [Enter Login], InvalidCredential)).
  { rewrite (app_login _ _ L), (login_unknown_email req s_unknown); [reflexivity |].
    exists email, password. now split. }
  assert (E2 : app req s_known = (s_known, [Enter Login; Translate e], errorHandler e)).
  { destruct Hs as (Hem & Hp & Te & Tp).
    rewrite (app_login _ _ L). unfold login.
    rewrite Hem, Hp. cbn [bind]. rewrite Te, Tp. cbn [negb orb].
    rewrite Hk. cbn [bind]. rewrite Hc. reflexivity. }
  rewrite E1, E2. repeat split.
  unfold errorHandler. cbn [snd status]. now rewrite He.
Qed.

(** ** The bulk routes behind the single-item routes *)

(** [PUT /users/bulk] and [DELETE /users/bulk] are registered after
    [PUT /users/:id] and [DELETE /users/:id], whose parameter takes the
    segment "bulk": no request is dispatched to the two bulk handlers. *)
Lemma bulk_handlers_unreachable (req : request) (rt : route) (ps : params) :
  routed req = Some (rt, ps) ->
  r_endpoint rt <> UpdateUsersBulk /\ r_endpoint rt <> DeleteUsersBulk.
Proof.
  unfold routed. destruct (path req) as [| mount p]; [discriminate |].
  destruct (toLowerCase mount =? "api")%string; [| discriminate].
  intros H.
  destruct (method req); cbn in H;
    repeat (match type of H with
            | context [match ?l with [] => _ | _ :: _ => _ end] => destruct l
            | context [if (?x =? "")%string then _ else _] =>
                destruct (String.eqb_spec x ""); [subst x |]
            | context [if ?b then _ else _] => destruct b
            end; cbn in H);
    try discriminate; injection H as <- <-; split; discriminate.
Qed.

Lemma DeleteOneRoute_registered : In DeleteOneRoute userRoutes.
Proof. unfold userRoutes, DeleteOneRoute. cbn [In]. tauto. Qed.

Lemma UpdateOneRoute_registered : In UpdateOneRoute userRoutes.
Proof. unfold userRoutes, UpdateOneRoute. cbn [In]. tauto. Qed.

(** C3, on the code. An authenticated [DELETE /api/users/bulk] is
    dispatched to the handler of [DELETE /users/:id] with [id = "bulk"];
    that handler calls [User.deleteById], which is not a function, and the
    answer is the error envelope with status 500, the store unchanged. No
    deleted count is ever reported. *)
Theorem delete_bulk_runs_delete_one (req : request) (s : server)
        (t : string) (decoded : value) :
  method req = DELETE -> path req = ["api"; "users"; "bulk"] ->
  authenticated req t decoded ->
  routed req = Some (DeleteOneRoute, [("id", "bulk")]) /\
  app req s =
  (s, [Verify t; Enter DeleteUser;
       Translate (TypeError "User.deleteById is not a function")],
   {| status := 500;
      json := VObj [("success", VBool false);
                    ("error", VStr "User.deleteById is not a function")] |}).
Proof.
  intros Hm Hp Ha.
  assert (Hr : routed req = Some (DeleteOneRoute, [("id", "bulk")])).
  { unfold routed. rewrite Hp, Hm. reflexivity. }
  split; [exact Hr |].
  rewrite (app_accepted _ s _ _ _ _ Hr DeleteOneRoute_registered Ha).
  reflexivity.
Qed.

(** C4, on the code. An authenticated [PUT /api/users/bulk] is dispatched
    to the handler of [PUT /users/:id] with [id = "bulk"]; the cast of
    "bulk" to an ObjectId fails, and the answer is the error envelope with
    status 500, the store unchanged. No pair of the body is applied and no
    modified count is reported. *)
Theorem update_bulk_runs_update_one (req : request) (s : server)
        (t : string) (decoded : value) :
  method req = PUT -> path req = ["api"; "users"; "bulk"] ->
  authenticated req t decoded ->
  routed req = Some (UpdateOneRoute, [("id", "bulk")]) /\
  app req s =
  (s, [Verify t; Enter UpdateUser; Translate (CastError "ObjectId" "bulk" "_id")],
   {| status := 500;
      json := VObj [("success", VBool false);
                    ("error", VStr "Cast to ObjectId failed for value bulk at path _id")] |}).
Proof.
  intros Hm Hp Ha.
  assert (Hr : routed req = Some (UpdateOneRoute, [("id", "bulk")])).
  { unfold routed. rewrite Hp, Hm. reflexivity. }
  split; [exact Hr |].
  rewrite (app_accepted _ s _ _ _ _ Hr UpdateOneRoute_registered Ha).
  cbn [UpdateOneRoute r_endpoint handler_of]. unfold updateUser, on_User.
  cbn. destruct s as [[sch ds fr] adm]. reflexivity.
Qed.

(** The handler of [DELETE /users/bulk] itself, were it reached, does what
    the specification asks: the count of the matching records, then 0. *)
Lemma filter_mem_after_delete (oids : list ObjectId) (l : list UserDoc) :
  filter (fun u => mem (u_id u) oids) (filter (fun u => negb (mem (u_id u) oids)) l) = [].
Proof.
  induction l as [| u l IH]; cbn [filter]; [reflexivity |].
  destruct (mem (u_id u) oids) eqn:E; cbn [negb filter]; [exact IH |].
  rewrite E. exact IH.
Qed.

Lemma deleteUsersBulk_twice (req : request) (s s1 : server) (r : response) :
  deleteUsersBulk req s = (s1, Ok r) ->
  exists oids,
    r = success 200 [("deleted",
                      VNum (Z.of_nat (List.length
                                        (filter (fun u => mem (u_id u) oids)
                                                (docs (User s))))))] /\
    exists s2, deleteUsersBulk req s1 = (s2, Ok (success 200 [("deleted", VNum 0)])) /\
               docs (User s2) = docs (User s1).
Proof.
  unfold deleteUsersBulk.
  destruct (prop "req.body" (body req) "ids") as [ids | e]; [| discriminate].
  unfold User_deleteMany_in, on_User.
  destruct ids as [ | | | | | | l | ]; try discriminate.
  destruct (castIds l) as [oids | e]; [| discriminate].
  cbn [fst snd bind]. intros [= <- <-].
  exists oids. split; [reflexivity |].
  eexists. split.
  - cbn [User set_User with_docs docs].
    rewrite filter_mem_after_delete. reflexivity.
  - cbn [User set_User with_docs docs].
    induction (docs (User s)) as [| u l' IH]; cbn [filter]; [reflexivity |].
    destruct (mem (u_id u) oids) eqn:E; cbn [negb filter]; [exact IH |].
    rewrite E. cbn [negb]. now rewrite IH.
Qed.

(** ** Deleting one user *)

(** C5, on the code. An authenticated [DELETE /api/users/:id] never
    removes anything: [User.deleteById] is not a function, the handler
    fails before any query, and the answer is the error envelope with status
    500, whether or not the id resolves. A [GET /api/users/:id] sent next
    for a record that exists still returns it with status 200. *)
Theorem delete_one_never_deletes (req : request) (s : server)
        (t : string) (decoded : value) (id : string) :
  method req = DELETE -> path req = ["api"; "users"; id] -> id <> "" ->
  authenticated req t decoded ->
  app req s =
  (s, [Verify t; Enter DeleteUser;
       Translate (TypeError "User.deleteById is not a function")],
   {| status := 500;
      json := VObj [("success", VBool false);
                    ("error", VStr "User.deleteById is not a function")] |})
  /\
  (forall (get : request) (t' : string) (decoded' : value) (oid : ObjectId) (u : UserDoc),
      method get = GET -> path get = ["api"; "users"; id] ->
      authenticated get t' decoded' ->
      castObjectId id = Ok oid -> lookup oid (docs (User s)) = Some u ->
      snd (app get (fst (fst (app req s)))) = success 200 [("data", User_toObject u)]).
Proof.
  intros Hm Hp Hid Ha.
  assert (Hr : routed req = Some (DeleteOneRoute, [("id", id)])).
  { unfold routed. rewrite Hp, Hm. cbn.
    destruct (String.eqb_spec id ""); [contradiction | reflexivity]. }
  assert (Happ : app req s =
                 (s, [Verify t; Enter DeleteUser;
                      Translate (TypeError "User.deleteById is not a function")],
                  errorHandler (TypeError "User.deleteById is not a function"))).
  { rewrite (app_accepted _ s _ _ _ _ Hr DeleteOneRoute_registered Ha). reflexivity. }
  split; [exact Happ |].
  intros get t' decoded' oid u Gm Gp Ga Hc Hl.
  rewrite Happ. cbn [fst].
  assert (Gr : routed get = Some (mkRoute GET [Static "users"; Param "id"] true GetUser,
                                  [("id", id)])).
  { unfold routed. rewrite Gp, Gm. cbn.
    destruct (String.eqb_spec id ""); [contradiction | reflexivity]. }
  rewrite (app_accepted _ s _ _ _ _ Gr (or_intror (or_intror (or_intror (or_introl eq_refl)))) Ga).
  cbn [r_endpoint handler_of]. unfold getUser, User_findById.
  replace (param [("id", id)] "id") with id by reflexivity.
  rewrite Hc. cbn [bind]. rewrite Hl. reflexivity.
Qed.

(** ** Pagination *)

(** C8, on the code. An authenticated [GET /api/users/page/:page] never
    succeeds: either the query throws, or its result is an array, on which
    [countDocuments] is not a function. The answer is the error envelope
    with status 500; no [pagination] object is ever sent. *)
Theorem paginate_never_succeeds (req : request) (s : server)
        (t : string) (decoded : value) (page : string) :
  method req = GET -> path req = ["api"; "users"; "page"; page] -> page <> "" ->
  authenticated req t decoded ->
  exists err,
    statusCode err = None /\
    app req s = (s, [Verify t; Enter Paginate; Translate err], errorHandler err) /\
    status (errorHandler err) = 500.
Proof.
  intros Hm Hp Hpg Ha.
  assert (Hr : routed req =
               Some (mkRoute GET [Static "users"; Static "page"; Param "page"] true Paginate,
                     [("page", page)])).
  { unfold routed. rewrite Hp, Hm. cbn.
    destruct (String.eqb_spec page ""); [contradiction | reflexivity]. }
  assert (Hin : In (mkRoute GET [Static "users"; Static "page"; Param "page"] true Paginate)
                   userRoutes).
  { unfold userRoutes. cbn [In]. tauto. }
  rewrite (app_accepted _ s _ _ _ _ Hr Hin Ha).
  cbn [r_endpoint handler_of]. unfold paginate.
  set (limit := match query_limit (set_user req decoded) with
                | Some l => Number l
                | None => None
                end).
  set (startIndex := match Number (param [("page", page)] "page"), limit with
                     | Some pg, Some l => Some ((pg - 1) * l)
                     | _, _ => None
                     end).
  unfold User_find_skip_limit.
  destruct startIndex as [k |], limit as [n |]; cbn [bind];
    try (eexists; repeat split; reflexivity).
  destruct (k <? 0); cbn [bind]; eexists; repeat split; reflexivity.
Qed.

(** ** The default of [createdAt] *)

Lemma castUser_createdAt_absent (fields : list (string * value)) (f : UserFields) :
  assoc "createdAt" fields = None -> castUser fields = Ok f -> f_createdAt f = Absent.
Proof.
  intros Hc. unfold castUser. rewrite Hc.
  destruct (castString "name" _) as [n | e]; cbn [bind]; [| discriminate].
  destruct (castString "email" _) as [em | e]; cbn [bind]; [| discriminate].
  destruct (castNumber "age" _) as [a | e]; cbn [bind]; [| discriminate].
  intros [= <-]. reflexivity.
Qed.

Lemma validated_same (b : bool) (f f' : UserFields) : validated b f = Ok f' -> f' = f.
Proof.
  unfold validated. destruct (validate b f); [intros [= <-]; reflexivity | discriminate].
Qed.

(** C9, on the code. A user created by [POST /api/users] from a body
    without [createdAt] receives the number [Date.now()] returned while
    models/User.js was loaded, whatever the time at which the request is
    served: the default is the time of the schema's definition, the same for
    all records, not the time of the record's creation. *)
Theorem createdAt_default_is_load_time (Date_now : Z) (req : request) (s : server)
        (t : string) (decoded : value) (fields : list (string * value))
        (m' : UserModel) (u : UserDoc) :
  method req = POST -> path req = ["api"; "users"] -> authenticated req t decoded ->
  schema (User s) = UserSchema Date_now ->
  body req = VObj fields -> assoc "createdAt" fields = None ->
  save (body req) (User s) = (m', Ok u) ->
  app req s = (set_User s m', [Verify t; Enter CreateUser],
               success 201 [("data", User_toObject u)]) /\
  docs m' = (docs (User s) ++ [u])%list /\
  u_createdAt u = Date_now.
Proof.
  intros Hm Hp Ha Hs Hb Hc Hsave.
  assert (Hr : routed req = Some (mkRoute POST [Static "users"] true CreateUser, [])).
  { unfold routed. rewrite Hp, Hm. reflexivity. }
  split.
  - rewrite (app_accepted _ s _ _ _ _ Hr (or_introl eq_refl) Ha).
    cbn [r_endpoint handler_of]. unfold createUser, on_User, User_create.
    cbn [body set_user]. rewrite Hb in *. rewrite Hsave. reflexivity.
  - revert Hsave. rewrite Hb. unfold save, fields_of_body.
    destruct (castUser fields) as [f | e] eqn:Hf; cbn [bind]; [| intros [= _ ?]; discriminate].
    destruct (validated true f) as [f' | e] eqn:Hv; [| intros [= _ ?]; discriminate].
    apply validated_same in Hv. subst f'.
    unfold insert. destruct (email_taken _ _ _); [intros [= _ ?]; discriminate |].
    intros [= <- <-]. cbn [docs new_doc u_createdAt].
    rewrite (castUser_createdAt_absent _ _ Hc Hf), Hs. split; reflexivity.
Qed.

(** ** Search *)








End Properties.

(** * The properties on the concrete instance *)

Lemma demo_authenticated (v : verb) (p : list string) (b : value) :
  @authenticated demo (request_of v p (Some "Bearer good") b) "good" good_token_payload.
Proof. split; [reflexivity | split; [discriminate | reflexivity]]. Qed.

(** C6 at the failure "User not found", which carries the code 404. *)
Lemma errorHandler_envelope_witness :
  (statusCode NotFound = Some 404 /\ message NotFound = Some "User not found") /\
  status (errorHandler NotFound) = 404 /\
  json (errorHandler NotFound) =
    VObj [("success", VBool false); ("error", VStr "User not found")].
Proof.
  split; [split; reflexivity |].
  destruct (errorHandler_envelope NotFound) as (_ & Hm & Hc & _).
  split.
  - apply (Hc 404); [reflexivity | discriminate].
  - apply (Hm "User not found"); [reflexivity | discriminate].
Defined.

(** C2 at [GET /api/users] without a header, and with an expired token. *)
Lemma gate_rejects_before_handler_witness :
  demo_app (request_of GET ["api"; "users"] None VUndefined) demo_server =
  (demo_server, [Translate AuthenticationRequired],
   {| status := 401;
      json := VObj [("success", VBool false); ("error", VStr "Authentication required")] |})
  /\
  demo_app (request_of GET ["api"; "users"] (Some "Bearer old") VUndefined) demo_server =
  (demo_server, [Verify "old"; Translate (set_statusCode 401 TokenExpiredError)],
   {| status := 401;
      json := VObj [("success", VBool false); ("error", VStr "jwt expired")] |}).
Proof.
  assert (Hin : In (mkRoute GET [Static "users"] true ListUsers) userRoutes).
  { unfold userRoutes. cbn [In]. tauto. }
  split.
  - apply (proj1 (@gate_rejects_before_handler demo
                    (request_of GET ["api"; "users"] None VUndefined) demo_server
                    (mkRoute GET [Static "users"] true ListUsers) [] eq_refl Hin)).
    reflexivity.
  - apply (proj2 (@gate_rejects_before_handler demo
                    (request_of GET ["api"; "users"] (Some "Bearer old") VUndefined)
                    demo_server
                    (mkRoute GET [Static "users"] true ListUsers) [] eq_refl Hin)
                 "old" TokenExpiredError);
      [reflexivity | discriminate | reflexivity].
Defined.

(** C10 at [GET /api/users] with the header "Bearer". *)
Lemma header_without_second_part_is_no_token_witness :
  has_char " " "Bearer" = false /\
  demo_app (request_of GET ["api"; "users"] (Some "Bearer") VUndefined) demo_server =
  (demo_server, [Translate AuthenticationRequired],
   {| status := 401;
      json := VObj [("success", VBool false); ("error", VStr "Authentication required")] |}).
Proof.
  split; [reflexivity |].
  assert (Hin : In (mkRoute GET [Static "users"] true ListUsers) userRoutes).
  { unfold userRoutes. cbn [In]. tauto. }
  apply (proj1 (@header_without_second_part_is_no_token demo
                  (request_of GET ["api"; "users"] (Some "Bearer") VUndefined) demo_server
                  (mkRoute GET [Static "users"] true ListUsers) [] "Bearer"
                  eq_refl Hin eq_refl eq_refl)).
Defined.

(** The two 401 answers, at an unknown email and at the root admin with a
    wrong password. *)
Lemma login_failures_indistinguishable_witness :
  demo_app (request_of POST ["api"; "login"] None (credentials "nobody@x.com" "secret1"))
           demo_server
  = (demo_server, [Enter Login], InvalidCredential)
  /\
  demo_app (request_of POST ["api"; "login"] None (credentials "root@x.com" "secret2"))
           demo_server
  = (demo_server, [Enter Login], InvalidCredential).
Proof.
  assert (U : @unknown_email demo
                (request_of POST ["api"; "login"] None (credentials "nobody@x.com" "secret1"))
                demo_server).
  { exists (VStr "nobody@x.com"), (VStr "secret1"). repeat split; reflexivity. }
  assert (W : @wrong_password demo
                (request_of POST ["api"; "login"] None (credentials "root@x.com" "secret2"))
                demo_server).
  { exists (VStr "root@x.com"), (VStr "secret2"), root. repeat split; reflexivity. }
  destruct (@login_failures_indistinguishable demo
              (request_of POST ["api"; "login"] None (credentials "nobody@x.com" "secret1"))
              (request_of POST ["api"; "login"] None (credentials "root@x.com" "secret2"))
              demo_server demo_server
              (conj eq_refl eq_refl) (conj eq_refl eq_refl) U W) as (H1 & H2 & _).
  split; [exact H1 | exact H2].
Defined.

(** C3 at an authenticated [DELETE /api/users/bulk] naming the one user
    of the store: nothing is deleted. *)
Lemma delete_bulk_runs_delete_one_witness :
  demo_app delete_bulk_request demo_server
  = (demo_server,
     [Verify "good"; Enter DeleteUser;
      Translate (TypeError "User.deleteById is not a function")],
     {| status := 500;
        json := VObj [("success", VBool false);
                      ("error", VStr "User.deleteById is not a function")] |}).
Proof.
  apply (proj2 (@delete_bulk_runs_delete_one demo delete_bulk_request demo_server
                  "good" good_token_payload
                  eq_refl eq_refl (demo_authenticated _ _ _))).
Defined.

(** C4 at an authenticated [PUT /api/users/bulk] renaming the one user of
    the store: nothing is modified. *)
Lemma update_bulk_runs_update_one_witness :
  demo_app update_bulk_request demo_server
  = (demo_server,
     [Verify "good"; Enter UpdateUser; Translate (CastError "ObjectId" "bulk" "_id")],
     {| status := 500;
        json := VObj [("success", VBool false);
                      ("error", VStr "Cast to ObjectId failed for value bulk at path _id")] |}).
Proof.
  apply (proj2 (@update_bulk_runs_update_one demo update_bulk_request demo_server
                  "good" good_token_payload
                  eq_refl eq_refl (demo_authenticated _ _ _))).
Defined.

(** C5 at an authenticated [DELETE /api/users/:id] for the id of the one
    user of the store, followed by a [GET] of the same id. *)
Lemma delete_one_never_deletes_witness :
  demo_app delete_bob_request demo_server
  = (demo_server,
     [Verify "good"; Enter DeleteUser;
      Translate (TypeError "User.deleteById is not a function")],
     {| status := 500;
        json := VObj [("success", VBool false);
                      ("error", VStr "User.deleteById is not a function")] |})
  /\
  snd (demo_app get_bob_request (fst (fst (demo_app delete_bob_request demo_server))))
  = success 200 [("data", User_toObject bob)].
Proof.
  destruct (@delete_one_never_deletes demo delete_bob_request demo_server
              "good" good_token_payload bob_id
              eq_refl eq_refl ltac:(discriminate) (demo_authenticated _ _ _)) as [H1 H2].
  split; [exact H1 |].
  apply (H2 get_bob_request "good" good_token_payload 1%N bob
            eq_refl eq_refl (demo_authenticated _ _ _));
    reflexivity.
Defined.

(** C8 at an authenticated [GET /api/users/page/1?limit=10]. *)
Lemma paginate_never_succeeds_witness :
  exists err,
    statusCode err = None /\
    demo_app page_request demo_server
    = (demo_server, [Verify "good"; Enter Paginate; Translate err], errorHandler err) /\
    status (errorHandler err) = 500.
Proof.
  apply (@paginate_never_succeeds demo page_request demo_server "good" good_token_payload "1"
           eq_refl eq_refl ltac:(discriminate) (demo_authenticated _ _ _)).
Defined.

(** C9 at a [POST /api/users] served at time 2000 by a server whose
    models were loaded at time 1000. *)
Lemma createdAt_default_is_load_time_witness :
  (served_at (create_request 2000 "Ann" "ann@x.com") = 2000 /\
   schema (User demo_server) = UserSchema 1000) /\
  demo_app (create_request 2000 "Ann" "ann@x.com") demo_server
  = (set_User demo_server demo_users_with_ann, [Verify "good"; Enter CreateUser],
     success 201 [("data", User_toObject ann)]) /\
  docs demo_users_with_ann = (docs (User demo_server) ++ [ann])%list /\
  u_createdAt ann = 1000.
Proof.
  split; [split; reflexivity |].
  apply (@createdAt_default_is_load_time demo 1000
           (create_request 2000 "Ann" "ann@x.com") demo_server "good" good_token_payload
           [("name", VStr "Ann"); ("email", VStr "ann@x.com")] demo_users_with_ann ann);
    try reflexivity.
  split; [reflexivity | split; [discriminate | reflexivity]].
Defined.

(** C9, the failing input: two users created at the times 2000 and 3000
    carry the same [createdAt], the load time 1000. *)
Example createdAt_same_for_two_creation_times :
  let s1 := fst (fst (demo_app (create_request 2000 "Ann" "ann@x.com") demo_server)) in
  let s2 := fst (fst (demo_app (create_request 3000 "Cy" "cy@x.com") s1)) in
  map (fun u => (u_name u, u_createdAt u)) (docs (User s2))
  = [("Bob", 1000); ("Ann", 1000); ("Cy", 1000)].
Proof. reflexivity. Qed.



(** Beside the two cases of C1: a comparison that throws is answered by
    the error translator. With a password that is not a string, the known
    email is answered 500 and the unknown one 401. *)
Example login_password_not_a_string :
  snd (demo_app (request_of POST ["api"; "login"] None
                            (VObj [("email", VStr "root@x.com"); ("password", VNum 123)]))
                demo_server)
  = {| status := 500;
       json := VObj [("success", VBool false);
                     ("error",
                      VStr "data must be a string or Buffer and hash must be a string")] |}
  /\
  snd (demo_app (request_of POST ["api"; "login"] None
                            (VObj [("email", VStr "nobody@x.com"); ("password", VNum 123)]))
                demo_server)
  = InvalidCredential.
Proof. split; reflexivity. Qed.

(** * Further properties *)

Section FurtherProperties.

Context {C : Collaborators}.

(** ** Dispatch *)

Lemma dispatch_no_match (routes : list route) (p : list string) (req : request)
      (s : server) :
  first_match routes (method req) p = None ->
  dispatch routes p req s = (s, [], Next req).
Proof.
  induction routes as [| r routes IH]; cbn [first_match dispatch]; [reflexivity |].
  destruct (matches r (method req) p); [discriminate | exact IH].
Qed.

Lemma app_unrouted (req : request) (s : server) :
  routed req = None -> app req s = (s, [], unhandled).
Proof.
  unfold routed, app. destruct (path req) as [| mount p]; [reflexivity |].
  destruct (toLowerCase mount =? "api")%string; [| reflexivity].
  intros H. now rewrite (dispatch_no_match _ _ _ s H).
Qed.

Lemma first_match_sound (routes : list route) (v : verb) (p : list string)
      (rt : route) (ps : params) :
  first_match routes v p = Some (rt, ps) ->
  In rt routes /\ r_verb rt = v /\ match_path (r_path rt) p = Some ps.
Proof.
  induction routes as [| r routes IH]; cbn [first_match]; [discriminate |].
  destruct (matches r v p) as [ps0 |] eqn:M.
  - intros [= <- <-]. unfold matches in M.
    destruct (verb_eqb (r_verb r) v) eqn:V; [| discriminate].
    repeat split; [now left | | exact M].
    destruct (r_verb r), v; (reflexivity || discriminate).
  - intros H. destruct (IH H) as (Hin & Hv & Hm). repeat split; auto. now right.
Qed.

Lemma routed_sound (req : request) (rt : route) (ps : params) :
  routed req = Some (rt, ps) ->
  In rt (userRoutes ++ authRoutes)%list /\ r_verb rt = method req.
Proof.
  unfold routed. destruct (path req) as [| mount p]; [discriminate |].
  destruct (toLowerCase mount =? "api")%string; [| discriminate].
  intros H. destruct (first_match_sound _ _ _ _ _ H) as (Hin & Hv & _). now split.
Qed.

Lemma authenticate_keeps_server (req : request) (s : server) :
  fst (fst (authenticate req s)) = s.
Proof.
  unfold authenticate.
  destruct (negb (truthy (bearer req))); [reflexivity |].
  destruct (bearer req) as [| | b | n | t | ms | items | fields]; try reflexivity.
  destruct (jwt_verify t JWT_SECRET); reflexivity.
Qed.

(** The store after a request is the store before it, or the one its
    route's handler leaves. *)
Lemma app_state (req : request) (s : server) :
  fst (fst (app req s)) = s \/
  exists rt ps req',
    routed req = Some (rt, ps) /\
    fst (fst (app req s)) = fst (handler_of (r_endpoint rt) ps req' s).
Proof.
  destruct (routed req) as [[rt ps] |] eqn:Hr.
  - rewrite (app_routed _ _ _ _ Hr). unfold stack.
    destruct (r_guarded rt); cbn [List.app run].
    + pose proof (authenticate_keeps_server req s) as Ha.
      destruct (authenticate req s) as [[s1 evs1] [r | req1 | e]]; cbn [fst] in Ha; subst s1.
      * now left.
      * right. exists rt, ps, req1. split; [reflexivity |].
        unfold asyncHandler.
        destruct (handler_of (r_endpoint rt) ps req1 s) as [s2 [resp | err]]; reflexivity.
      * now left.
    + right. exists rt, ps, req. split; [reflexivity |].
      unfold asyncHandler.
      destruct (handler_of (r_endpoint rt) ps req s) as [s2 [resp | err]]; reflexivity.
  - left. now rewrite (app_unrouted _ _ Hr).
Qed.


(** ** Login and registration *)

Lemma assoc_without (k : string) (fields : list (string * value)) :
  assoc k (without k fields) = None.
Proof.
  induction fields as [| [k' v] fields IH]; cbn [without filter assoc fst]; [reflexivity |].
  destruct (String.eqb_spec k' k) as [E | N]; cbn [negb]; [exact IH |].
  cbn [assoc]. destruct (String.eqb_spec k k') as [E' | _]; [now subst | exact IH].
Qed.

Lemma assoc_without_other (k k' : string) (fields : list (string * value)) :
  k' <> k -> assoc k' (without k fields) = assoc k' fields.
Proof.
  intros Hne. induction fields as [| [k0 v] fields IH]; cbn [without filter assoc fst];
    [reflexivity |].
  destruct (String.eqb_spec k0 k) as [E | N]; cbn [negb assoc].
  - subst k0. destruct (String.eqb_spec k' k) as [E' | _]; [contradiction | exact IH].
  - destruct (k' =? k0)%string; [reflexivity | exact IH].
Qed.

Lemma assoc_app_last (k : string) (v : value) (fields : list (string * value)) :
  assoc k fields = None -> assoc k (fields ++ [(k, v)])%list = Some v.
Proof.
  induction fields as [| [k0 v0] fields IH]; cbn [List.app assoc].
  - now rewrite String.eqb_refl.
  - destruct (k =? k0)%string; [discriminate | exact IH].
Qed.

(** X1. A login that leaves out the email or the password, or gives an
    empty one, is answered 400 with the message "Email and Password are
    required" under the key [message]; the admin collection is not
    consulted, whatever it holds. *)
Theorem login_missing_field_is_bad_request (req : request) (s : server)
        (email password : value) :
  is_login req ->
  prop "req.body" (body req) "email" = Ok email ->
  prop "req.body" (body req) "password" = Ok password ->
  truthy email = false \/ truthy password = false ->
  app req s =
  (s, [Enter Login],
   {| status := 400;
      json := VObj [("success", VBool false);
                    ("message", VStr "Email and Password are required")] |}).
Proof.
  intros L He Hp Hf. rewrite (app_login _ _ L). unfold login.
  rewrite He, Hp. cbn [bind].
  assert (E : negb (truthy email) || negb (truthy password) = true).
  { destruct Hf as [-> | ->]; [reflexivity | apply orb_true_r]. }
  rewrite E. reflexivity.
Qed.

(** X2. A login whose email resolves and whose password the comparison
    accepts is answered 200 with the message "Login Successful", the token
    signed for the admin's id, and the admin's document without its
    [password] field; the store is left as it was. *)
Theorem login_success_hides_password (req : request) (s : server)
        (email password : value) (admin : AdminDoc) (tok : string) :
  is_login req -> supplies req email password ->
  Admin_findOne_email email (Admin s) = Ok (Some admin) ->
  bcrypt_compare password (a_password admin) = Ok true ->
  jwt_sign (VObj [("id", VStr (ObjectId_toString (a_id admin)))]) JWT_SECRET "24h" = Ok tok ->
  exists data,
    app req s =
    (s, [Enter Login],
     {| status := 200;
        json := VObj [("success", VBool true);
                      ("message", VStr "Login Successful");
                      ("data", VObj data);
                      ("token", VStr tok)] |}) /\
    assoc "password" data = None /\
    assoc "_id" data = Some (VStr (ObjectId_toString (a_id admin))) /\
    assoc "email" data = Some (VStr (a_email admin)).
Proof.
  intros L (He & Hp & Te & Tp) Hf Hc Hs.
  exists (without "password" (Admin_toObject admin)).
  split; [| split; [apply assoc_without | split; reflexivity]].
  rewrite (app_login _ _ L). unfold login.
  rewrite He, Hp. cbn [bind]. rewrite Te, Tp. cbn [negb orb].
  rewrite Hf. cbn [bind]. rewrite Hc. cbn [bind negb].
  unfold token_for. rewrite Hs. reflexivity.
Qed.

Lemma app_register (req : request) (s : server) :
  method req = POST -> path req = ["api"; "register"] ->
  app req s =
  match register req s with
  | (s', Ok r) => (s', [Enter Register], r)
  | (s', Throw err) => (s', [Enter Register; Translate err], errorHandler err)
  end.
Proof.
  intros Hm Hp.
  assert (Hr : routed req = Some (mkRoute POST [Static "register"] false Register, [])).
  { unfold routed. rewrite Hp, Hm. reflexivity. }
  rewrite (app_routed _ _ _ _ Hr).
  unfold stack. cbn [r_guarded r_endpoint List.app run handler_of]. unfold asyncHandler.
  destruct (register req s) as [s' [r | err]]; reflexivity.
Qed.

(** X3. Registration hands [Admin.create] the body with its [password]
    replaced by the hash of cost 12, never the password as received, and
    answers 201 with the token and the created document without its
    [password] field. *)
Theorem register_stores_hash_and_hides_it (req : request) (s : server)
        (fields : list (string * value)) (password : value) (hashed : string)
        (admins : AdminStore) (admin : AdminDoc) (tok : string) :
  method req = POST -> path req = ["api"; "register"] ->
  body req = VObj fields -> assoc "password" fields = Some password ->
  bcrypt_hash password 12 = Ok hashed ->
  Admin_create (spread_with (body req) "password" (VStr hashed)) (Admin s)
  = (admins, Ok admin) ->
  jwt_sign (VObj [("id", VStr (ObjectId_toString (a_id admin)))]) JWT_SECRET "24h" = Ok tok ->
  (exists doc, spread_with (body req) "password" (VStr hashed) = VObj doc /\
               assoc "password" doc = Some (VStr hashed) /\
               forall k, k <> "password" -> assoc k doc = assoc k fields) /\
  exists data,
    app req s =
    ({| User := User s; Admin := admins |}, [Enter Register],
     {| status := 201;
        json := VObj [("success", VBool true); ("data", VObj data); ("token", VStr tok)] |}) /\
    assoc "password" data = None.
Proof.
  intros Hm Hp Hb Hpw Hh Hc Hs. split.
  - rewrite Hb. cbn [spread_with]. eexists. split; [reflexivity |]. split.
    + apply assoc_app_last, assoc_without.
    + intros k Hk. rewrite <- (assoc_without_other "password" k fields Hk).
      generalize (without "password" fields). intros l.
      induction l as [| [k0 v0] l IH]; cbn [List.app assoc].
      * destruct (String.eqb_spec k "password"); [contradiction | reflexivity].
      * destruct (k =? k0)%string; [reflexivity | exact IH].
  - exists (without "password" (Admin_toObject admin)).
    split; [| apply assoc_without].
    rewrite (app_register _ _ Hm Hp). unfold register.
    rewrite Hb in *. cbn [prop]. rewrite Hpw. cbn [bind]. rewrite Hh.
    unfold on_Admin. rewrite Hc. cbn [fst snd bind].
    unfold token_for. rewrite Hs. reflexivity.
Qed.

(** X4. The two credential routes stand outside the gate: a request
    routed to [/register] or [/login] is answered as the same request
    without its [Authorization] header, and the token verifier is not
    called. *)
Theorem credential_routes_ignore_authorization (req : request) (s : server)
        (rt : route) (ps : params) :
  routed req = Some (rt, ps) -> In rt authRoutes ->
  app req s = app (without_authorization req) s /\
  forall t, ~ In (Verify t) (snd (fst (app req s))).
Proof.
  intros Hr Hin.
  assert (Hr' : routed (without_authorization req) = Some (rt, ps)) by exact Hr.
  rewrite (app_routed _ _ _ _ Hr), (app_routed _ _ _ _ Hr').
  unfold authRoutes in Hin. cbn [In] in Hin.
  destruct Hin as [<- | [<- | []]];
    unfold stack; cbn [r_guarded r_endpoint List.app run handler_of]; unfold asyncHandler.
  - replace (register (without_authorization req) s) with (register req s) by reflexivity.
    destruct (register req s) as [s' [r | err]]; (split; [reflexivity |]);
      intros t; cbn; intuition discriminate.
  - replace (login (without_authorization req) s) with (login req s) by reflexivity.
    destruct (login req s) as [s' [r | err]]; (split; [reflexivity |]);
      intros t; cbn; intuition discriminate.
Qed.

(** X5. No [GET] request changes the store. *)
Theorem get_requests_leave_store_unchanged (req : request) (s : server) :
  method req = GET -> fst (fst (app req s)) = s.
Proof.
  intros Hm.
  destruct (app_state req s) as [E | (rt & ps & req' & Hr & E)]; [exact E |].
  rewrite E. destruct (routed_sound _ _ _ Hr) as [Hin Hv]. rewrite Hm in Hv.
  unfold userRoutes, authRoutes in Hin. cbn [List.app In] in Hin.
  repeat (destruct Hin as [<- | Hin]; [try discriminate Hv; reflexivity |]).
  contradiction.
Qed.

(** X6. A request that no route matches (another verb, another path, a
    path outside [/api]) runs no middleware of the routers: the store is
    unchanged and the answer is Express' own 404. *)
Theorem unmatched_request_is_unhandled (req : request) (s : server) :
  routed req = None -> app req s = (s, [], {| status := 404; json := VUndefined |}).
Proof.
  intros Hr. unfold routed in Hr. unfold app.
  destruct (path req) as [| mount p]; [reflexivity |].
  destruct (toLowerCase mount =? "api")%string; [| reflexivity].
  now rewrite (dispatch_no_match _ _ _ s Hr).
Qed.


(** ** ObjectIds *)

Lemma hex_digit_hex_char (d : N) : (d < 16)%N -> hex_digit (hex_char d) = Some d.
Proof.
  intros H.
  destruct d as [| p]; [reflexivity |].
  do 4 (destruct p as [p | p |]; try reflexivity); exfalso; lia.
Qed.

Lemma parse_hex_hex_digits (k : nat) (n acc : N) (rest : string) :
  parse_hex (hex_digits k n rest) acc
  = parse_hex rest (acc * 16 ^ N.of_nat k + n mod 16 ^ N.of_nat k)%N.
Proof.
  revert n acc rest. induction k as [| k IH]; intros n acc rest.
  - cbn [hex_digits]. f_equal. change (N.of_nat 0) with 0%N.
    rewrite N.pow_0_r, N.mod_1_r. lia.
  - cbn [hex_digits]. rewrite IH. cbn [parse_hex].
    rewrite hex_digit_hex_char by (apply N.mod_lt; discriminate).
    f_equal. rewrite Nat2N.inj_succ, N.pow_succ_r'.
    rewrite (N.Div0.mod_mul_r n 16 (16 ^ N.of_nat k)). lia.
Qed.

Lemma length_hex_digits (k : nat) (n : N) (rest : string) :
  String.length (hex_digits k n rest) = (k + String.length rest)%nat.
Proof.
  revert n rest. induction k as [| k IH]; intros n rest; cbn [hex_digits]; [reflexivity |].
  rewrite IH. cbn [String.length]. lia.
Qed.

Lemma castObjectId_toString (id : ObjectId) :
  (id < ObjectId_bound)%N -> castObjectId (ObjectId_toString id) = Ok id.
Proof.
  intros H. unfold castObjectId, ObjectId_toString.
  rewrite length_hex_digits. cbn [String.length Nat.add Nat.eqb].
  rewrite parse_hex_hex_digits. cbn [parse_hex].
  rewrite N.mul_0_l, N.add_0_l, N.mod_small by exact H. reflexivity.
Qed.

(** ** The invariant of the user collection *)

Lemma lower_ascii_idempotent (c : ascii) : lower_ascii (lower_ascii c) = lower_ascii c.
Proof.
  destruct c as [[] [] [] [] [] [] [] []]; reflexivity.
Qed.

Lemma toLowerCase_idempotent (s : string) : toLowerCase (toLowerCase s) = toLowerCase s.
Proof.
  induction s as [| c s IH]; cbn [toLowerCase]; [reflexivity |].
  now rewrite lower_ascii_idempotent, IH.
Qed.

Lemma castUser_email_lowercase (fields : list (string * value)) (f : UserFields) :
  castUser fields = Ok f -> lowercase_email f.
Proof.
  unfold castUser, lowercase_email.
  destruct (castString "name" _) as [n | e]; cbn [bind]; [| discriminate].
  destruct (castString "email" _) as [em | e]; cbn [bind]; [| discriminate].
  destruct (castNumber "age" _) as [a | e]; cbn [bind]; [| discriminate].
  destruct (castDate "createdAt" _) as [c | e]; cbn [bind]; [| discriminate].
  intros [= <-]. cbn [f_email field_or].
  destruct em as [| | x]; cbn [field_map field_or]; [reflexivity | reflexivity |].
  apply toLowerCase_idempotent.
Qed.

Lemma fields_of_body_email_lowercase (b : value) (f : UserFields) :
  fields_of_body b = Ok f -> lowercase_email f.
Proof.
  unfold fields_of_body.
  destruct b; try discriminate; apply castUser_email_lowercase.
Qed.

Lemma checked_email_lowercase (b : value) (f : UserFields) :
  (f <- fields_of_body b ;; validated true f) = Ok f -> lowercase_email f.
Proof.
  destruct (fields_of_body b) as [f0 | e] eqn:E; cbn [bind]; [| discriminate].
  intros H. apply validated_same in H. subst f.
  now apply (fields_of_body_email_lowercase b).
Qed.

Lemma NoDup_snoc {A : Type} (x : A) (l : list A) :
  NoDup l -> ~ In x l -> NoDup (l ++ [x]).
Proof.
  induction l as [| y l IH]; cbn [List.app]; intros Hn Hx.
  - constructor; [intros [] | constructor].
  - inversion Hn as [| y' l' Hy Hl]; subst. constructor.
    + rewrite in_app_iff. cbn [In]. intros [H | [H | []]]; [contradiction |].
      subst. apply Hx. now left.
    + apply IH; [assumption |]. intros H. apply Hx. now right.
Qed.

Lemma email_not_taken (e : string) (l : list UserDoc) :
  email_taken e None l = false -> ~ In e (map u_email l).
Proof.
  unfold email_taken. induction l as [| u l IH]; cbn [existsb map In]; [tauto |].
  intros H. apply orb_false_iff in H as [Hu Hl].
  rewrite andb_true_r in Hu. apply String.eqb_neq in Hu.
  intros [E | Hin]; [now apply Hu | now apply IH].
Qed.

Lemma insert_well_formed (f : UserFields) (m : UserModel) :
  well_formed m -> lowercase_email f -> well_formed (fst (insert f m)).
Proof.
  intros [Hb Hi He Hl] Hf. unfold insert.
  destruct (email_taken (u_email (new_doc m f)) None (docs m)) eqn:T; cbn [fst].
  - now constructor.
  - constructor; cbn [docs fresh].
    + intros u Hu. apply in_app_iff in Hu as [Hu | [<- | []]].
      * specialize (Hb u Hu). lia.
      * cbn [new_doc u_id]. lia.
    + rewrite map_app. cbn [map]. apply NoDup_snoc; [assumption |].
      cbn [new_doc u_id]. intros Hin. apply in_map_iff in Hin as (u & E & Hu).
      specialize (Hb u Hu). lia.
    + rewrite map_app. cbn [map]. apply NoDup_snoc; [assumption |].
      now apply email_not_taken.
    + intros u Hu. apply in_app_iff in Hu as [Hu | [<- | []]]; [now apply Hl |].
      exact Hf.
Qed.

Lemma map_id_replace (u' : UserDoc) (l : list UserDoc) :
  map u_id (replace u' l) = map u_id l.
Proof.
  induction l as [| u l IH]; cbn [replace map]; [reflexivity |].
  destruct (N.eqb_spec (u_id u) (u_id u')) as [E | _]; cbn [map].
  - now rewrite E.
  - now rewrite IH.
Qed.

Lemma In_replace (u' x : UserDoc) (l : list UserDoc) :
  In x (replace u' l) -> x = u' \/ In x l.
Proof.
  induction l as [| u l IH]; cbn [replace In]; [tauto |].
  destruct (u_id u =? u_id u')%N; cbn [In]; intuition.
Qed.

Lemma replace_emails_distinct (u' : UserDoc) (l : list UserDoc) :
  NoDup (map u_id l) -> NoDup (map u_email l) ->
  (forall d, In d l -> u_email d = u_email u' -> u_id d = u_id u') ->
  NoDup (map u_email (replace u' l)).
Proof.
  induction l as [| u l IH]; cbn [replace map]; intros Hi He Ht; [constructor |].
  inversion Hi as [| ? ? Hiu Hil]; inversion He as [| ? ? Heu Hel]; subst.
  destruct (N.eqb_spec (u_id u) (u_id u')) as [E | N]; cbn [map]; constructor.
  - intros Hin. apply in_map_iff in Hin as (d & Ed & Hd).
    apply Hiu. rewrite E, <- (Ht d (or_intror Hd) Ed). now apply in_map.
  - assumption.
  - intros Hin. apply in_map_iff in Hin as (d & Ed & Hd).
    apply In_replace in Hd as [-> | Hd].
    + apply N. now apply Ht; [left |].
    + apply Heu. rewrite <- Ed. now apply in_map.
  - apply IH; try assumption. intros d Hd. apply Ht. now right.
Qed.

Lemma email_taken_by_other (e : string) (oid : ObjectId) (l : list UserDoc) :
  email_taken e (Some oid) l = false ->
  forall d, In d l -> u_email d = e -> u_id d = oid.
Proof.
  unfold email_taken. intros H d Hd E.
  destruct (N.eqb_spec (u_id d) oid) as [Eq | Ne]; [assumption | exfalso].
  assert (X : existsb (fun u => (u_email u =? e)%string && negb (u_id u =? oid)%N) l = true).
  { apply existsb_exists. exists d. split; [assumption |].
    rewrite E, String.eqb_refl. apply N.eqb_neq in Ne. now rewrite Ne. }
  congruence.
Qed.

Lemma lookup_found (oid : ObjectId) (l : list UserDoc) (u : UserDoc) :
  lookup oid l = Some u -> In u l /\ u_id u = oid.
Proof.
  unfold lookup. intros H. apply find_some in H as [Hin E].
  split; [assumption | now apply N.eqb_eq].
Qed.

Lemma updateOne_well_formed (oid : ObjectId) (f : UserFields) (m : UserModel) :
  well_formed m -> lowercase_email f -> well_formed (fst (updateOne oid f m)).
Proof.
  intros W Hf. pose proof W as [Hb Hi He Hl]. unfold updateOne.
  destruct (lookup oid (docs m)) as [u |] eqn:L; cbn [fst]; [| assumption].
  destruct (lookup_found _ _ _ L) as [Hu Eid].
  destruct (email_taken _ _ _) eqn:T; cbn [fst]; [assumption |].
  constructor; cbn [with_docs docs fresh].
  - intros x Hx. apply In_replace in Hx as [-> | Hx]; [| now apply Hb].
    cbn [set_fields u_id]. now apply Hb.
  - now rewrite map_id_replace.
  - apply replace_emails_distinct; try assumption.
    cbn [set_fields u_id]. rewrite Eid.
    now apply email_taken_by_other.
  - intros x Hx. apply In_replace in Hx as [-> | Hx]; [| now apply Hl].
    cbn [set_fields u_email]. unfold lowercase_email in Hf.
    destruct (f_email f) as [| | e]; cbn [field_or] in *; now try apply Hl.
Qed.

Lemma NoDup_map_filter {A B : Type} (g : A -> B) (p : A -> bool) (l : list A) :
  NoDup (map g l) -> NoDup (map g (filter p l)).
Proof.
  induction l as [| x l IH]; cbn [map filter]; intros H; [constructor |].
  inversion H as [| ? ? Hx Hl]; subst.
  destruct (p x); cbn [map]; [| now apply IH].
  constructor; [| now apply IH].
  intros Hin. apply Hx. apply in_map_iff in Hin as (y & E & Hy).
  apply filter_In in Hy as [Hy _]. rewrite <- E. now apply in_map.
Qed.

Lemma filter_well_formed (p : UserDoc -> bool) (m : UserModel) :
  well_formed m -> well_formed (with_docs m (filter p (docs m))).
Proof.
  intros [Hb Hi He Hl]. constructor; cbn [with_docs docs fresh].
  - intros u Hu. apply filter_In in Hu as [Hu _]. now apply Hb.
  - now apply NoDup_map_filter.
  - now apply NoDup_map_filter.
  - intros u Hu. apply filter_In in Hu as [Hu _]. now apply Hl.
Qed.


Lemma save_well_formed (b : value) (m : UserModel) :
  well_formed m -> well_formed (fst (save b m)).
Proof.
  intros W. unfold save.
  destruct (f <- fields_of_body b ;; validated true f) as [f | e] eqn:E; [| exact W].
  apply insert_well_formed; [exact W | now apply (checked_email_lowercase b)].
Qed.

Lemma save_each_well_formed (l : list value) (m : UserModel) :
  well_formed m -> well_formed (fst (fst (save_each l m))).
Proof.
  revert m. induction l as [| b l IH]; intros m W; cbn [save_each]; [exact W |].
  pose proof (save_well_formed b m W) as W1.
  destruct (save b m) as [m1 r]. cbn [fst] in W1.
  specialize (IH m1 W1).
  destruct (save_each l m1) as [[m2 saved] err]. cbn [fst] in IH.
  destruct r; exact IH.
Qed.

Lemma User_create_well_formed (b : value) (m : UserModel) :
  well_formed m -> well_formed (fst (User_create b m)).
Proof.
  intros W. unfold User_create.
  assert (S1 : well_formed (fst (let '(m', r) := save b m in
                                 (m', u <- r ;; Ok (User_toObject u))))).
  { pose proof (save_well_formed b m W) as W1. now destruct (save b m). }
  destruct b; try exact S1.
  pose proof (save_each_well_formed items m W) as W2.
  destruct (save_each items m) as [[m' saved] [e |]]; exact W2.
Qed.

Lemma validate_all_lowercase (l : list value) (fs : list UserFields) :
  validate_all l = Ok fs -> Forall lowercase_email fs.
Proof.
  revert fs. induction l as [| b l IH]; intros fs; cbn [validate_all].
  - intros [= <-]. constructor.
  - destruct (f <- fields_of_body b ;; validated true f) as [f | e] eqn:E;
      cbn [bind]; [| discriminate].
    destruct (validate_all l) as [fs' | e]; cbn [bind]; [| discriminate].
    intros [= <-]. constructor; [now apply (checked_email_lowercase b) | now apply IH].
Qed.

Lemma insert_all_well_formed (fs : list UserFields) (m : UserModel) :
  well_formed m -> Forall lowercase_email fs -> well_formed (fst (insert_all fs m)).
Proof.
  revert m. induction fs as [| f fs IH]; intros m W F; cbn [insert_all]; [exact W |].
  inversion F as [| ? ? Hf Hfs]; subst.
  pose proof (insert_well_formed f m W Hf) as W1.
  destruct (insert f m) as [m1 [u | e]]; cbn [fst] in W1; [| exact W1].
  specialize (IH m1 W1 Hfs). now destruct (insert_all fs m1).
Qed.

Lemma User_insertMany_well_formed (b : value) (m : UserModel) :
  well_formed m -> well_formed (fst (User_insertMany b m)).
Proof.
  intros W. unfold User_insertMany.
  destruct (validate_all _) as [fs | e] eqn:E; [| exact W].
  apply insert_all_well_formed; [exact W | now apply validate_all_lowercase in E].
Qed.

Lemma User_findByIdAndUpdate_well_formed (id : string) (b : value) (m : UserModel) :
  well_formed m -> well_formed (fst (User_findByIdAndUpdate id b m)).
Proof.
  intros W. unfold User_findByIdAndUpdate.
  destruct (castObjectId id) as [oid | e]; cbn [bind]; [| exact W].
  assert (H : forall fields,
             well_formed
               (fst match (f <- castUser fields ;; f0 <- validated false f ;; Ok (oid, f0)) with
                    | Ok (oid0, f) =>
                        let '(m', r) := updateOne oid0 f m in
                        (m', x <- r ;; Ok (option_map snd x))
                    | Throw e => (m, Throw e)
                    end)).
  { intros fields.
    destruct (castUser fields) as [f | e] eqn:E; cbn [bind]; [| exact W].
    destruct (validated false f) as [f0 | e] eqn:V; cbn [bind]; [| exact W].
    apply validated_same in V. subst f0.
    pose proof (updateOne_well_formed oid f m W (castUser_email_lowercase _ _ E)) as W1.
    now destruct (updateOne oid f m). }
  destruct b; try exact W; apply H.
Qed.

Lemma castOperations_lowercase (ops : list (value * value))
      (l : list (ObjectId * UserFields)) :
  castOperations ops = Ok l -> Forall (fun x => lowercase_email (snd x)) l.
Proof.
  revert l. induction ops as [| [id data] ops IH]; intros l; cbn [castOperations].
  - intros [= <-]. constructor.
  - unfold castOperation.
    destruct (match id with VStr s => castObjectId s | _ => _ end) as [oid | e];
      cbn [bind]; [| discriminate].
    destruct (match data with VObj fields => castUser fields | VUndefined | VNull => _ | _ => _ end)
      as [f | e] eqn:E; cbn [bind]; [| discriminate].
    destruct (castOperations ops) as [l' | e]; cbn [bind]; [| discriminate].
    intros [= <-]. constructor; [| now apply IH].
    cbn [snd]. destruct data; try discriminate; now apply castUser_email_lowercase in E.
Qed.

Lemma run_updates_well_formed (l : list (ObjectId * UserFields)) (m : UserModel) (k : Z) :
  well_formed m -> Forall (fun x => lowercase_email (snd x)) l ->
  well_formed (fst (run_updates l m k)).
Proof.
  revert m k. induction l as [| [oid f] l IH]; intros m k W F; cbn [run_updates]; [exact W |].
  inversion F as [| ? ? Hf Hl]; subst. cbn [snd] in Hf.
  pose proof (updateOne_well_formed oid f m W Hf) as W1.
  destruct (updateOne oid f m) as [m1 [[[u u'] |] | e]]; cbn [fst] in W1.
  - now apply IH.
  - now apply IH.
  - exact W1.
Qed.

Lemma User_bulkWrite_well_formed (ops : list (value * value)) (m : UserModel) :
  well_formed m -> well_formed (fst (User_bulkWrite ops m)).
Proof.
  intros W. unfold User_bulkWrite.
  destruct (castOperations ops) as [l | e] eqn:E; [| exact W].
  apply run_updates_well_formed; [exact W | now apply castOperations_lowercase in E].
Qed.

Lemma User_deleteMany_in_well_formed (ids : value) (m : UserModel) :
  well_formed m -> well_formed (fst (User_deleteMany_in ids m)).
Proof.
  intros W. unfold User_deleteMany_in.
  destruct ids; try exact W.
  destruct (castIds items); [| exact W].
  now apply filter_well_formed.
Qed.

Lemma handler_well_formed (e : endpoint) (ps : params) (req : request) (s : server) :
  well_formed (User s) -> well_formed (User (fst (handler_of e ps req s))).
Proof.
  intros W. destruct e; cbn [handler_of].
  - unfold createUser, on_User.
    pose proof (User_create_well_formed (body req) _ W). now destruct (User_create _ _).
  - unfold createUsersBulk, on_User.
    pose proof (User_insertMany_well_formed (body req) _ W). now destruct (User_insertMany _ _).
  - exact W.
  - exact W.
  - unfold updateUser, on_User.
    pose proof (User_findByIdAndUpdate_well_formed (param ps "id") (body req) _ W).
    now destruct (User_findByIdAndUpdate _ _ _).
  - unfold updateUsersBulk.
    destruct (match body req with VArr items => operations_of items | VUndefined | VNull => _ | _ => _ end)
      as [ops | err]; [| exact W].
    unfold on_User. pose proof (User_bulkWrite_well_formed ops _ W).
    now destruct (User_bulkWrite _ _).
  - exact W.
  - unfold deleteUsersBulk.
    destruct (prop "req.body" (body req) "ids") as [ids | err]; [| exact W].
    unfold on_User. pose proof (User_deleteMany_in_well_formed ids _ W).
    now destruct (User_deleteMany_in _ _).
  - exact W.
  - exact W.
  - unfold register.
    destruct (password <- prop "req.body" (body req) "password" ;; bcrypt_hash password 12);
      [| exact W].
    unfold on_Admin. now destruct (Admin_create _ _).
  - exact W.
Qed.

(** In the model every request leaves the user collection well formed. *)
Lemma app_keeps_users_well_formed (req : request) (s : server) :
  well_formed (User s) -> well_formed (User (fst (fst (app req s)))).
Proof.
  intros W.
  destruct (app_state req s) as [E | (rt & ps & req' & _ & E)]; rewrite E.
  - exact W.
  - now apply handler_well_formed.
Qed.

(** X8. Whatever requests are served, one after the other, from a
    well-formed store, the ids of the collection stay pairwise distinct, the
    emails stay pairwise distinct, and no stored email has an ASCII capital
    letter. The bodies of the requests are those the model reads as the
    store does: no [_id], no update operator, ASCII strings, integer ages. *)
Theorem requests_keep_users_distinct (reqs : list request) (s : server) :
  well_formed (User s) ->
  Forall (fun req => modelled_body (body req) = true) reqs ->
  NoDup (map u_id (docs (User (serve reqs s)))) /\
  NoDup (map u_email (docs (User (serve reqs s)))) /\
  (forall u, In u (docs (User (serve reqs s))) -> toLowerCase (u_email u) = u_email u).
Proof.
  intros W _. revert s W.
  induction reqs as [| req reqs IH]; intros s W; cbn [serve].
  - split; [apply ids_distinct | split; [apply emails_distinct | apply emails_lowercase]];
      exact W.
  - apply IH. now apply app_keeps_users_well_formed.
Qed.


(** ** Reading and creating one user *)

Lemma set_User_same (s : server) : set_User s (User s) = s.
Proof. now destruct s. Qed.

Lemma app_get_user (req : request) (s : server) (t : string) (decoded : value)
      (id : string) :
  method req = GET -> path req = ["api"; "users"; id] -> id <> "" ->
  authenticated req t decoded ->
  app req s =
  match castObjectId id with
  | Throw e => (s, [Verify t; Enter GetUser; Translate e], errorHandler e)
  | Ok oid =>
      match lookup oid (docs (User s)) with
      | None => (s, [Verify t; Enter GetUser; Translate NotFound], errorHandler NotFound)
      | Some u => (s, [Verify t; Enter GetUser], success 200 [("data", User_toObject u)])
      end
  end.
Proof.
  intros Hm Hp Hid Ha.
  assert (Hr : routed req = Some (mkRoute GET [Static "users"; Param "id"] true GetUser,
                                  [("id", id)])).
  { unfold routed. rewrite Hp, Hm. cbn.
    destruct (String.eqb_spec id ""); [contradiction | reflexivity]. }
  rewrite (app_accepted _ s _ _ _ _ Hr (or_intror (or_intror (or_intror (or_introl eq_refl)))) Ha).
  cbn [r_endpoint handler_of]. unfold getUser, User_findById.
  replace (param [("id", id)] "id") with id by reflexivity.
  destruct (castObjectId id) as [oid | e]; cbn [bind]; [| reflexivity].
  destruct (lookup oid (docs (User s))); reflexivity.
Qed.


(** X7. An authenticated [GET /api/users/:id] is answered 200 with the
    record when the id resolves, 404 "User not found" when it is a
    well-formed id that resolves to nothing, and 500 with the cast error,
    not 404, when the id is not 24 hexadecimal digits. The store is
    unchanged in each case. *)
Theorem read_one_user (req : request) (s : server) (t : string) (decoded : value)
        (id : string) :
  method req = GET -> path req = ["api"; "users"; id] -> id <> "" ->
  authenticated req t decoded ->
  (forall oid u, castObjectId id = Ok oid -> lookup oid (docs (User s)) = Some u ->
     app req s = (s, [Verify t; Enter GetUser],
                  {| status := 200;
                     json := VObj [("success", VBool true); ("data", User_toObject u)] |}))
  /\
  (forall oid, castObjectId id = Ok oid -> lookup oid (docs (User s)) = None ->
     app req s = (s, [Verify t; Enter GetUser; Translate NotFound],
                  {| status := 404;
                     json := VObj [("success", VBool false);
                                   ("error", VStr "User not found")] |}))
  /\
  (forall e, castObjectId id = Throw e ->
     e = CastError "ObjectId" id "_id" /\
     app req s = (s, [Verify t; Enter GetUser; Translate e], errorHandler e) /\
     status (errorHandler e) = 500).
Proof.
  intros Hm Hp Hid Ha. rewrite (app_get_user _ s _ _ _ Hm Hp Hid Ha).
  split; [| split].
  - intros oid u -> ->. reflexivity.
  - intros oid -> ->. reflexivity.
  - intros e He. rewrite He.
    assert (E : e = CastError "ObjectId" id "_id").
    { unfold castObjectId in He.
      destruct (String.length id =? 24)%nat; [| now injection He].
      destruct (parse_hex id 0); [discriminate | now injection He]. }
    subst e. repeat split.
Qed.

Lemma cast_errors_carry_no_status (path : string) (v : value) (e : error) :
  (castString path v = Throw e -> statusCode e = None) /\
  (castNumber path v = Throw e -> statusCode e = None) /\
  (castDate path v = Throw e -> statusCode e = None).
Proof.
  repeat split; intros H; destruct v; cbn in H; try discriminate;
    try (injection H as <-; reflexivity).
  - destruct (s =? "")%string; [discriminate |].
    destruct (Number s); [discriminate | injection H as <-; reflexivity].
  - destruct (Number s); [discriminate |].
    destruct (Date_parse s); [discriminate | injection H as <-; reflexivity].
Qed.

Lemma castUser_error_carries_no_status (fields : list (string * value)) (e : error) :
  castUser fields = Throw e -> statusCode e = None.
Proof.
  unfold castUser.
  destruct (castString "name" _) as [n | e1] eqn:E1; cbn [bind];
    [| intros [= <-]; now apply (cast_errors_carry_no_status _ _ _) in E1].
  destruct (castString "email" _) as [em | e2] eqn:E2; cbn [bind];
    [| intros [= <-]; now apply (cast_errors_carry_no_status _ _ _) in E2].
  destruct (castNumber "age" _) as [a | e3] eqn:E3; cbn [bind];
    [| intros [= <-]; now apply (cast_errors_carry_no_status _ _ _) in E3].
  destruct (castDate "createdAt" _) as [c | e4] eqn:E4; cbn [bind];
    [discriminate | intros [= <-]; now apply (cast_errors_carry_no_status _ _ _) in E4].
Qed.

Lemma validated_error_carries_no_status (b : bool) (f : UserFields) (e : error) :
  validated b f = Throw e -> statusCode e = None.
Proof.
  unfold validated. destruct (validate b f); [discriminate |].
  intros [= <-]. reflexivity.
Qed.

(** Saving an object: either nothing changes and the error carries no
    status code, or exactly one document, built from the checked fields with
    the fresh id, goes to the end of the collection. *)
Lemma save_object_cases (fields : list (string * value)) (m : UserModel) :
  (exists e, save (VObj fields) m = (m, Throw e) /\ statusCode e = None) \/
  (exists f,
      castUser fields = Ok f /\ validate true f = [] /\
      email_taken (u_email (new_doc m f)) None (docs m) = false /\
      save (VObj fields) m =
      ({| schema := schema m; docs := (docs m ++ [new_doc m f])%list;
          fresh := N.succ (fresh m) |}, Ok (new_doc m f))).
Proof.
  unfold save, fields_of_body.
  destruct (castUser fields) as [f | e] eqn:E; cbn [bind].
  - destruct (validated true f) as [f' | e] eqn:V.
    + pose proof (validated_same _ _ _ V). subst f'.
      unfold insert. destruct (email_taken _ _ _) eqn:T.
      * left. eexists. split; reflexivity.
      * right. exists f. repeat split; try assumption.
        unfold validated in V. now destruct (validate true f).
    + left. exists e. split; [reflexivity | now apply validated_error_carries_no_status in V].
  - left. exists e. split; [reflexivity | now apply castUser_error_carries_no_status in E].
Qed.

Lemma app_create_object (req : request) (s : server) (t : string) (decoded : value)
      (fields : list (string * value)) :
  method req = POST -> path req = ["api"; "users"] -> authenticated req t decoded ->
  body req = VObj fields ->
  app req s =
  match save (VObj fields) (User s) with
  | (m', Ok u) => (set_User s m', [Verify t; Enter CreateUser],
                   success 201 [("data", User_toObject u)])
  | (m', Throw e) => (set_User s m', [Verify t; Enter CreateUser; Translate e],
                      errorHandler e)
  end.
Proof.
  intros Hm Hp Ha Hb.
  assert (Hr : routed req = Some (mkRoute POST [Static "users"] true CreateUser, [])).
  { unfold routed. rewrite Hp, Hm. reflexivity. }
  rewrite (app_accepted _ s _ _ _ _ Hr (or_introl eq_refl) Ha).
  cbn [r_endpoint handler_of]. unfold createUser, on_User, User_create.
  cbn [body set_user]. rewrite Hb.
  destruct (save (VObj fields) (User s)) as [m' [u | e]]; reflexivity.
Qed.

Lemma find_snoc_fresh (id : ObjectId) (u : UserDoc) (l : list UserDoc) :
  (forall x, In x l -> u_id x <> id) -> u_id u = id -> lookup id (l ++ [u]) = Some u.
Proof.
  intros Hl Hu. unfold lookup. induction l as [| x l IH]; cbn [List.app find].
  - rewrite Hu, N.eqb_refl. reflexivity.
  - destruct (N.eqb_spec (u_id x) id) as [E | _].
    + exfalso. now apply (Hl x (or_introl eq_refl)).
    + apply IH. intros y Hy. apply Hl. now right.
Qed.

Lemma ObjectId_toString_not_empty (id : ObjectId) : ObjectId_toString id <> "".
Proof.
  intros H. pose proof (length_hex_digits 24 id "") as L.
  unfold ObjectId_toString in H. rewrite H in L. discriminate L.
Qed.

(** X9. In a well-formed store whose id generator is within 96 bits, an
    authenticated [POST /api/users] with an object body (no [_id], ASCII
    strings, an integer age if any) either fails,
    answering 500 and leaving the store unchanged, or answers 201 with the
    new record, which is then the last of the collection and is what an
    authenticated [GET /api/users/:id] with the returned id answers. *)
Theorem create_then_read (post : request) (s : server) (t : string) (decoded : value)
        (fields : list (string * value)) :
  well_formed (User s) -> (fresh (User s) < ObjectId_bound)%N ->
  method post = POST -> path post = ["api"; "users"] -> authenticated post t decoded ->
  body post = VObj fields -> modelled_body (body post) = true ->
  (exists e, app post s = (s, [Verify t; Enter CreateUser; Translate e], errorHandler e) /\
             status (errorHandler e) = 500)
  \/
  (exists u s',
      app post s = (s', [Verify t; Enter CreateUser],
                    success 201 [("data", User_toObject u)]) /\
      docs (User s') = (docs (User s) ++ [u])%list /\
      forall (get : request) (t' : string) (decoded' : value),
        method get = GET -> path get = ["api"; "users"; ObjectId_toString (u_id u)] ->
        authenticated get t' decoded' ->
        app get s' = (s', [Verify t'; Enter GetUser],
                      success 200 [("data", User_toObject u)])).
Proof.
  intros W Hfresh Hm Hp Ha Hb _.
  rewrite (app_create_object _ s _ _ _ Hm Hp Ha Hb).
  destruct (save_object_cases fields (User s)) as [(e & -> & He) | (f & _ & _ & _ & ->)].
  - left. exists e. rewrite set_User_same. split; [reflexivity |].
    unfold errorHandler. cbn [status]. now rewrite He.
  - right. eexists. eexists. split; [reflexivity |]. split; [reflexivity |].
    intros get t' decoded' Gm Gp Ga.
    rewrite (app_get_user _ _ _ _ _ Gm Gp (ObjectId_toString_not_empty _) Ga).
    cbn [new_doc u_id]. rewrite (castObjectId_toString _ Hfresh).
    cbn [set_User User docs].
    rewrite (find_snoc_fresh (fresh (User s)) (new_doc (User s) f)); [reflexivity | | reflexivity].
    intros x Hx E. pose proof (ids_below_fresh _ W x Hx). lia.
Qed.

Lemma toLowerCase_not_empty (e : string) : e <> "" -> toLowerCase e <> "".
Proof. destruct e; [contradiction | discriminate]. Qed.

Lemma email_taken_by (e : string) (l : list UserDoc) (u : UserDoc) :
  In u l -> u_email u = e -> email_taken e None l = true.
Proof.
  intros Hin E. unfold email_taken. apply existsb_exists. exists u.
  split; [assumption |]. now rewrite E, String.eqb_refl.
Qed.

Lemma castUser_name_email (fields : list (string * value)) (n e : string) :
  assoc "name" fields = Some (VStr n) -> assoc "email" fields = Some (VStr e) ->
  forall f, castUser fields = Ok f ->
            f_name f = Val (trim n) /\ f_email f = Val (toLowerCase e).
Proof.
  intros Hn He f. unfold castUser. rewrite Hn, He. cbn [castString bind].
  destruct (castNumber "age" _) as [a | x]; cbn [bind]; [| discriminate].
  destruct (castDate "createdAt" _) as [c | x]; cbn [bind]; [| discriminate].
  intros [= <-]. split; reflexivity.
Qed.

(** X10. The unique index on [email] is met after lower-casing: an
    authenticated [POST /api/users] with an ASCII name and email, whose email is
    that of a stored record up to ASCII case, inserts nothing and is
    answered through the error translator with status 500 (no 400 or 409 is
    set for it). *)
Theorem duplicate_email_is_rejected (post : request) (s : server)
        (t : string) (decoded : value) (n e : string) (existing : UserDoc) :
  method post = POST -> path post = ["api"; "users"] -> authenticated post t decoded ->
  body post = VObj [("name", VStr n); ("email", VStr e)] ->
  ascii_only n = true -> ascii_only e = true ->
  trim n <> "" -> e <> "" ->
  In existing (docs (User s)) -> u_email existing = toLowerCase e ->
  app post s =
  (s, [Verify t; Enter CreateUser; Translate (DuplicateKeyError (toLowerCase e))],
   errorHandler (DuplicateKeyError (toLowerCase e))) /\
  status (errorHandler (DuplicateKeyError (toLowerCase e))) = 500.
Proof.
  intros Hm Hp Ha Hb _ _ Hn He Hin Heq.
  split; [| reflexivity].
  rewrite (app_create_object _ s _ _ _ Hm Hp Ha Hb).
  unfold save, fields_of_body, castUser. cbn [assoc String.eqb Ascii.eqb Bool.eqb].
  cbn [castString castNumber castDate bind field_map].
  unfold validated, validate. cbn [f_name f_email f_age required_fails].
  destruct (String.eqb_spec (trim n) "") as [E | _]; [contradiction |].
  destruct (String.eqb_spec (toLowerCase e) "") as [E | _];
    [now apply toLowerCase_not_empty in E |].
  cbn [List.app]. unfold insert. cbn [new_doc u_email f_email field_or].
  rewrite (email_taken_by _ _ _ Hin Heq), set_User_same. reflexivity.
Qed.

Lemma validate_passed (f : UserFields) :
  validate true f = [] ->
  (exists n, f_name f = Val n /\ n <> "") /\
  (exists e, f_email f = Val e /\ e <> "") /\
  (forall a, f_age f = Val a -> 0 <= a).
Proof.
  unfold validate. intros H.
  apply app_eq_nil in H as [Hn H]. apply app_eq_nil in H as [He Ha].
  repeat split.
  - destruct (f_name f) as [| | n]; cbn in Hn; try discriminate.
    exists n. split; [reflexivity |].
    destruct (String.eqb_spec n ""); [discriminate | assumption].
  - destruct (f_email f) as [| | e]; cbn in He; try discriminate.
    exists e. split; [reflexivity |].
    destruct (String.eqb_spec e ""); [discriminate | assumption].
  - intros a E. rewrite E in Ha. destruct (Z.ltb_spec a 0); [discriminate | assumption].
Qed.

(** X11. A 201 answer to an authenticated [POST /api/users] with an object
    body (no [_id], ASCII strings, an integer age if any) means a record that meets the schema went into the collection: its
    name is not empty, its email is not empty and in lower case, its age, if
    any, is not negative; a name given as a string was trimmed and an email
    given as a string was lower-cased. *)
Theorem created_user_meets_schema (post : request) (s : server)
        (t : string) (decoded : value) (fields : list (string * value)) :
  method post = POST -> path post = ["api"; "users"] -> authenticated post t decoded ->
  body post = VObj fields -> modelled_body (body post) = true ->
  status (snd (app post s)) = 201 ->
  exists u,
    snd (app post s) = success 201 [("data", User_toObject u)] /\
    In u (docs (User (fst (fst (app post s))))) /\
    u_name u <> "" /\ u_email u <> "" /\ toLowerCase (u_email u) = u_email u /\
    (forall a, u_age u = Some a -> 0 <= a) /\
    (forall n, assoc "name" fields = Some (VStr n) -> u_name u = trim n) /\
    (forall e, assoc "email" fields = Some (VStr e) -> u_email u = toLowerCase e).
Proof.
  intros Hm Hp Ha Hb _. rewrite (app_create_object _ s _ _ _ Hm Hp Ha Hb).
  destruct (save_object_cases fields (User s)) as [(e & -> & He) | (f & Hc & Hv & _ & ->)];
    cbn [fst snd].
  - unfold errorHandler. cbn [status]. rewrite He. discriminate.
  - intros _. exists (new_doc (User s) f).
    destruct (validate_passed f Hv) as ((n0 & En & Nn) & (e0 & Ee & Ne) & Hage).
    pose proof (castUser_email_lowercase _ _ Hc) as Hl. unfold lowercase_email in Hl.
    cbn [new_doc u_name u_email u_age set_User User docs].
    rewrite En, Ee. rewrite Ee in Hl. cbn [field_or] in *.
    repeat split; try assumption.
    + apply in_app_iff. right. now left.
    + intros a. destruct (f_age f) as [| | a0]; cbn [field_opt]; try discriminate.
      intros [= <-]. now apply Hage.
    + intros n Hn. unfold castUser in Hc. rewrite Hn in Hc. cbn [castString bind] in Hc.
      destruct (castString "email" _); cbn [bind] in Hc; [| discriminate].
      destruct (castNumber "age" _); cbn [bind] in Hc; [| discriminate].
      destruct (castDate "createdAt" _); cbn [bind] in Hc; [| discriminate].
      injection Hc as <-. cbn in En. now injection En.
    + intros e He. unfold castUser in Hc. rewrite He in Hc.
      destruct (castString "name" _); cbn [bind] in Hc; [| discriminate].
      cbn [castString bind] in Hc.
      destruct (castNumber "age" _); cbn [bind] in Hc; [| discriminate].
      destruct (castDate "createdAt" _); cbn [bind] in Hc; [| discriminate].
      injection Hc as <-. cbn in Ee. now injection Ee.
Qed.

(** ** Creating users in bulk *)

Lemma checked_error_carries_no_status (b : value) (e : error) :
  (f <- fields_of_body b ;; validated true f) = Throw e -> statusCode e = None.
Proof.
  destruct (fields_of_body b) as [f | e0] eqn:E; cbn [bind].
  - apply validated_error_carries_no_status.
  - intros [= <-]. unfold fields_of_body in E.
    destruct b; try (injection E as <-; reflexivity);
      now apply castUser_error_carries_no_status in E.
Qed.

Lemma validate_all_error_carries_no_status (l : list value) (e : error) :
  validate_all l = Throw e -> statusCode e = None.
Proof.
  induction l as [| b l IH]; cbn [validate_all]; [discriminate |].
  destruct (f <- fields_of_body b ;; validated true f) as [f | e0] eqn:E; cbn [bind].
  - destruct (validate_all l) as [fs | e1]; cbn [bind]; [discriminate |].
    intros [= <-]. now apply IH.
  - intros [= <-]. now apply checked_error_carries_no_status in E.
Qed.

Lemma validate_all_stops_at_invalid (l : list value) (b : value) (e0 : error) :
  In b l -> (f <- fields_of_body b ;; validated true f) = Throw e0 ->
  exists e, validate_all l = Throw e.
Proof.
  intros Hin Hb. induction l as [| x l IH]; [contradiction |].
  cbn [validate_all].
  destruct (f <- fields_of_body x ;; validated true f) as [f | e1] eqn:E; cbn [bind];
    [| now exists e1].
  destruct Hin as [-> | Hin]; [congruence |].
  destruct (IH Hin) as [e ->]. cbn [bind]. now exists e.
Qed.

Lemma validate_all_length (l : list value) (fs : list UserFields) :
  validate_all l = Ok fs -> List.length fs = List.length l.
Proof.
  revert fs. induction l as [| b l IH]; intros fs; cbn [validate_all].
  - now intros [= <-].
  - destruct (f <- fields_of_body b ;; validated true f); cbn [bind]; [| discriminate].
    destruct (validate_all l) as [fs' |]; cbn [bind]; [| discriminate].
    intros [= <-]. cbn [List.length]. now rewrite (IH fs').
Qed.

Lemma missing_name_is_invalid (fields : list (string * value)) :
  assoc "name" fields = None ->
  exists e, (f <- fields_of_body (VObj fields) ;; validated true f) = Throw e.
Proof.
  intros Hn. cbn [fields_of_body].
  destruct (castUser fields) as [f | e] eqn:E; cbn [bind]; [| now exists e].
  assert (Hf : f_name f = Absent).
  { unfold castUser in E. rewrite Hn in E. cbn [castString bind] in E.
    destruct (castString "email" _); cbn [bind] in E; [| discriminate].
    destruct (castNumber "age" _); cbn [bind] in E; [| discriminate].
    destruct (castDate "createdAt" _); cbn [bind] in E; [| discriminate].
    now injection E as <-. }
  unfold validated, validate. rewrite Hf. cbn [required_fails List.app].
  eexists. reflexivity.
Qed.

Lemma insert_all_cases (fs : list UserFields) (m : UserModel) :
  match insert_all fs m with
  | (m', Ok us) => docs m' = (docs m ++ us)%list /\ List.length us = List.length fs
  | (m', Throw e) => statusCode e = None
  end.
Proof.
  revert m. induction fs as [| f fs IH]; intros m; cbn [insert_all].
  - split; [now rewrite app_nil_r | reflexivity].
  - unfold insert at 1.
    destruct (email_taken _ _ _); [reflexivity |].
    set (m1 := {| schema := schema m; docs := (docs m ++ [new_doc m f])%list;
                  fresh := N.succ (fresh m) |}).
    specialize (IH m1). destruct (insert_all fs m1) as [m2 [us | e]]; cbn [bind].
    + destruct IH as [Hd Hl]. split.
      * rewrite Hd. subst m1. cbn [docs]. now rewrite <- app_assoc.
      * cbn [List.length]. now rewrite Hl.
    + exact IH.
Qed.

Lemma app_create_bulk (req : request) (s : server) (t : string) (decoded : value) :
  method req = POST -> path req = ["api"; "users"; "bulk"] ->
  authenticated req t decoded ->
  app req s =
  match User_insertMany (body req) (User s) with
  | (m', Ok users) =>
      (set_User s m', [Verify t; Enter CreateUsersBulk],
       success 201 [("count", count_of users); ("data", VArr (map User_toObject users))])
  | (m', Throw e) =>
      (set_User s m', [Verify t; Enter CreateUsersBulk; Translate e], errorHandler e)
  end.
Proof.
  intros Hm Hp Ha.
  assert (Hr : routed req =
               Some (mkRoute POST [Static "users"; Static "bulk"] true CreateUsersBulk, [])).
  { unfold routed. rewrite Hp, Hm. reflexivity. }
  rewrite (app_accepted _ s _ _ _ _ Hr (or_intror (or_introl eq_refl)) Ha).
  cbn [r_endpoint handler_of]. unfold createUsersBulk, on_User. cbn [body set_user].
  destruct (User_insertMany (body req) (User s)) as [m' [us | e]]; reflexivity.
Qed.

(** X12. [POST /api/users/bulk] is not captured by [POST /users] and
    reaches the bulk handler. Every element is checked before the first
    insert: a batch with an element that has no name inserts nothing and is
    answered 500. A 201 answer reports as [count] the number of elements
    submitted, all of which were appended, in order, to the collection. *)
Theorem bulk_create_checks_then_appends (req : request) (s : server)
        (t : string) (decoded : value) (items : list value) :
  method req = POST -> path req = ["api"; "users"; "bulk"] ->
  authenticated req t decoded -> body req = VArr items ->
  (forall fields, In (VObj fields) items -> assoc "name" fields = None ->
     exists e, app req s = (s, [Verify t; Enter CreateUsersBulk; Translate e],
                            errorHandler e) /\
               status (errorHandler e) = 500)
  /\
  (status (snd (app req s)) = 201 ->
   exists users,
     snd (app req s) =
     success 201 [("count", VNum (Z.of_nat (List.length items)));
                  ("data", VArr (map User_toObject users))] /\
     List.length users = List.length items /\
     docs (User (fst (fst (app req s)))) = (docs (User s) ++ users)%list).
Proof.
  intros Hm Hp Ha Hb. rewrite (app_create_bulk _ s _ _ Hm Hp Ha).
  unfold User_insertMany. rewrite Hb. split.
  - intros fields Hin Hn.
    destruct (missing_name_is_invalid fields Hn) as [e0 He0].
    destruct (validate_all_stops_at_invalid _ _ _ Hin He0) as [e He].
    rewrite He. exists e. rewrite set_User_same. split; [reflexivity |].
    unfold errorHandler. cbn [status].
    now rewrite (validate_all_error_carries_no_status _ _ He).
  - destruct (validate_all items) as [fs | e] eqn:V.
    + pose proof (insert_all_cases fs (User s)) as I.
      destruct (insert_all fs (User s)) as [m' [us | e]]; cbn [fst snd].
      * intros _. destruct I as [Hd Hl]. exists us.
        rewrite <- (validate_all_length _ _ V), <- Hl. repeat split. exact Hd.
      * unfold errorHandler. cbn [status]. rewrite I. discriminate.
    + cbn [fst snd]. unfold errorHandler. cbn [status].
      rewrite (validate_all_error_carries_no_status _ _ V). discriminate.
Qed.

(** ** What requests do to the ids of the collection *)

Lemma ids_extend_refl (m : UserModel) : ids_extend m m.
Proof. exists []. now rewrite app_nil_r. Qed.

Lemma ids_extend_trans (m1 m2 m3 : UserModel) :
  ids_extend m1 m2 -> ids_extend m2 m3 -> ids_extend m1 m3.
Proof.
  intros [a Ha] [b Hb]. exists (a ++ b)%list. now rewrite Hb, Ha, app_assoc.
Qed.

Lemma insert_ids (f : UserFields) (m : UserModel) : ids_extend m (fst (insert f m)).
Proof.
  unfold insert. destruct (email_taken _ _ _); cbn [fst]; [apply ids_extend_refl |].
  exists [u_id (new_doc m f)]. cbn [docs]. now rewrite map_app.
Qed.

Lemma save_ids (b : value) (m : UserModel) : ids_extend m (fst (save b m)).
Proof.
  unfold save. destruct (f <- fields_of_body b ;; validated true f);
    [apply insert_ids | apply ids_extend_refl].
Qed.

Lemma save_each_ids (l : list value) (m : UserModel) :
  ids_extend m (fst (fst (save_each l m))).
Proof.
  revert m. induction l as [| b l IH]; intros m; cbn [save_each]; [apply ids_extend_refl |].
  pose proof (save_ids b m) as H1. destruct (save b m) as [m1 r]. cbn [fst] in H1.
  specialize (IH m1). destruct (save_each l m1) as [[m2 saved] err]. cbn [fst] in IH.
  destruct r; cbn [fst]; exact (ids_extend_trans _ _ _ H1 IH).
Qed.

Lemma User_create_ids (b : value) (m : UserModel) : ids_extend m (fst (User_create b m)).
Proof.
  unfold User_create.
  assert (S1 : ids_extend m (fst (let '(m', r) := save b m in
                                  (m', u <- r ;; Ok (User_toObject u))))).
  { pose proof (save_ids b m). now destruct (save b m). }
  destruct b; try exact S1.
  pose proof (save_each_ids items m) as H.
  destruct (save_each items m) as [[m' saved] [e |]]; exact H.
Qed.

Lemma insert_all_ids (fs : list UserFields) (m : UserModel) :
  ids_extend m (fst (insert_all fs m)).
Proof.
  revert m. induction fs as [| f fs IH]; intros m; cbn [insert_all]; [apply ids_extend_refl |].
  pose proof (insert_ids f m) as H1.
  destruct (insert f m) as [m1 [u | e]]; cbn [fst] in H1; [| exact H1].
  specialize (IH m1). destruct (insert_all fs m1) as [m2 r]. cbn [fst] in *.
  exact (ids_extend_trans _ _ _ H1 IH).
Qed.

Lemma updateOne_ids (oid : ObjectId) (f : UserFields) (m : UserModel) :
  map u_id (docs (fst (updateOne oid f m))) = map u_id (docs m).
Proof.
  unfold updateOne. destruct (lookup oid (docs m)); [| reflexivity].
  destruct (email_taken _ _ _); [reflexivity |].
  cbn [fst with_docs docs]. apply map_id_replace.
Qed.

Lemma User_findByIdAndUpdate_ids (id : string) (b : value) (m : UserModel) :
  map u_id (docs (fst (User_findByIdAndUpdate id b m))) = map u_id (docs m).
Proof.
  unfold User_findByIdAndUpdate.
  destruct (oid <- castObjectId id ;; _) as [[oid f] | e]; [| reflexivity].
  pose proof (updateOne_ids oid f m). now destruct (updateOne oid f m).
Qed.

Lemma run_updates_ids (l : list (ObjectId * UserFields)) (m : UserModel) (k : Z) :
  map u_id (docs (fst (run_updates l m k))) = map u_id (docs m).
Proof.
  revert m k. induction l as [| [oid f] l IH]; intros m k; cbn [run_updates]; [reflexivity |].
  pose proof (updateOne_ids oid f m) as H1.
  destruct (updateOne oid f m) as [m1 [[[u u'] |] | e]]; cbn [fst] in H1;
    try (rewrite IH); exact H1.
Qed.

Lemma same_ids_extend (m m' : UserModel) :
  map u_id (docs m') = map u_id (docs m) -> ids_extend m m'.
Proof. intros H. exists []. now rewrite app_nil_r. Qed.

Lemma handler_ids (e : endpoint) (ps : params) (req : request) (s : server) :
  e <> DeleteUsersBulk ->
  ids_extend (User s) (User (fst (handler_of e ps req s))).
Proof.
  intros He. destruct e; cbn [handler_of]; try apply ids_extend_refl.
  - unfold createUser, on_User.
    pose proof (User_create_ids (body req) (User s)). now destruct (User_create _ _).
  - unfold createUsersBulk, on_User, User_insertMany.
    destruct (validate_all _) as [fs | x]; [| apply ids_extend_refl].
    pose proof (insert_all_ids fs (User s)). now destruct (insert_all _ _).
  - unfold updateUser, on_User. apply same_ids_extend.
    pose proof (User_findByIdAndUpdate_ids (param ps "id") (body req) (User s)).
    now destruct (User_findByIdAndUpdate _ _ _).
  - unfold updateUsersBulk.
    destruct (match body req with VArr items => operations_of items | VUndefined | VNull => _ | _ => _ end)
      as [ops | err]; [| apply ids_extend_refl].
    unfold on_User, User_bulkWrite. apply same_ids_extend.
    destruct (castOperations ops) as [l | x]; [| reflexivity].
    pose proof (run_updates_ids l (User s) 0). now destruct (run_updates _ _ _).
  - contradiction.
  - unfold register.
    destruct (password <- prop "req.body" (body req) "password" ;; bcrypt_hash password 12);
      [| apply ids_extend_refl].
    unfold on_Admin. destruct (Admin_create _ _). apply ids_extend_refl.
Qed.

(** X13. No request removes a user or changes a user's id: after any
    request the ids of the collection are the ids before it, in the same
    order, followed by the ids of the records the request created. *)
Theorem no_request_removes_a_user (req : request) (s : server) :
  exists added,
    map u_id (docs (User (fst (fst (app req s)))))
    = (map u_id (docs (User s)) ++ added)%list.
Proof.
  destruct (app_state req s) as [E | (rt & ps & req' & Hr & E)]; rewrite E.
  - apply ids_extend_refl.
  - apply handler_ids. now apply (bulk_handlers_unreachable req rt ps).
Qed.

(** ** Updating one user *)

Lemma In_replace_other (u' x : UserDoc) (l : list UserDoc) :
  In x l -> u_id x <> u_id u' -> In x (replace u' l).
Proof.
  intros Hin Hne. induction l as [| u l IH]; [contradiction |].
  cbn [replace]. destruct (N.eqb_spec (u_id u) (u_id u')) as [E | _].
  - destruct Hin as [-> | Hin]; [contradiction | now right].
  - destruct Hin as [-> | Hin]; [now left | right; now apply IH].
Qed.

Lemma updateOne_frame (oid : ObjectId) (f : UserFields) (m : UserModel) (x : UserDoc) :
  In x (docs m) -> u_id x <> oid -> In x (docs (fst (updateOne oid f m))).
Proof.
  intros Hin Hne. unfold updateOne.
  destruct (lookup oid (docs m)) as [u |] eqn:L; [| assumption].
  destruct (email_taken _ _ _); [assumption |].
  cbn [fst with_docs docs]. apply In_replace_other; [assumption |].
  cbn [set_fields u_id]. destruct (lookup_found _ _ _ L) as [_ ->]. assumption.
Qed.

(** X16. An authenticated [PUT /api/users/:id] touches at most the record
    with that id: every other record is in the collection afterwards as it
    was, no record is added or removed, and the order of the ids is kept. *)
Theorem update_one_touches_only_its_record (req : request) (s : server)
        (t : string) (decoded : value) (id : string) :
  method req = PUT -> path req = ["api"; "users"; id] -> id <> "" ->
  authenticated req t decoded ->
  map u_id (docs (User (fst (fst (app req s))))) = map u_id (docs (User s)) /\
  forall x, In x (docs (User s)) -> castObjectId id <> Ok (u_id x) ->
            In x (docs (User (fst (fst (app req s))))).
Proof.
  intros Hm Hp Hid Ha.
  assert (Hr : routed req = Some (UpdateOneRoute, [("id", id)])).
  { unfold routed. rewrite Hp, Hm. cbn.
    destruct (String.eqb_spec id ""); [contradiction | reflexivity]. }
  rewrite (app_accepted _ s _ _ _ _ Hr UpdateOneRoute_registered Ha).
  cbn [UpdateOneRoute r_endpoint handler_of]. unfold updateUser, on_User.
  replace (param [("id", id)] "id") with id by reflexivity.
  cbn [body set_user].
  assert (E : forall (r : UserModel * outcome (option UserDoc)),
             User (fst (fst
               (let '(s', r0) := (set_User s (fst r), snd r) in
                match (user <- r0 ;;
                       match user with
                       | Some u => Ok (success 200 [("data", User_toObject u)])
                       | None => Throw NotFound
                       end) with
                | Ok r1 => (s', [Verify t; Enter UpdateUser], r1)
                | Throw err => (s', [Verify t; Enter UpdateUser; Translate err], errorHandler err)
                end))) = fst r).
  { intros [m' [[u |] | e]]; reflexivity. }
  split.
  - etransitivity; [| apply (User_findByIdAndUpdate_ids id (body req) (User s))].
    f_equal. f_equal. apply E.
  - intros x Hx Hne.
    replace (docs _) with (docs (fst (User_findByIdAndUpdate id (body req) (User s))))
      by (f_equal; symmetry; apply E).
    unfold User_findByIdAndUpdate.
    destruct (castObjectId id) as [oid | e]; cbn [bind]; [| exact Hx].
    assert (Hoid : u_id x <> oid) by (intros <-; now apply Hne).
    destruct (match body req with VObj fields => castUser fields | VUndefined | VNull => _ | _ => _ end)
      as [f | e]; cbn [bind]; [| exact Hx].
    destruct (validated false f) as [f0 | e]; cbn [bind]; [| exact Hx].
    pose proof (updateOne_frame oid f0 (User s) x Hx Hoid).
    now destruct (updateOne oid f0 (User s)).
Qed.

(** ** The handler of the bulk delete *)

Lemma filter_filter_same {A : Type} (p : A -> bool) (l : list A) :
  filter p (filter p l) = filter p l.
Proof.
  induction l as [| x l IH]; cbn [filter]; [reflexivity |].
  destruct (p x) eqn:E; cbn [filter]; [rewrite E; now f_equal | exact IH].
Qed.

(** X14. The handler registered for [DELETE /users/bulk], taken by itself:
    for a body [{ids: [...]}] of well-formed ids it removes exactly the
    records whose id is listed, reports their number, and keeps the others
    in order; run again on the resulting store it reports 0 and changes
    nothing. *)
Theorem bulk_delete_handler_is_idempotent (req : request) (s : server)
        (fields : list (string * value)) (ids : list value) (oids : list ObjectId) :
  body req = VObj fields -> assoc "ids" fields = Some (VArr ids) -> castIds ids = Ok oids ->
  exists s1,
    deleteUsersBulk req s =
    (s1, Ok (success 200
               [("deleted",
                 VNum (Z.of_nat (List.length
                                   (filter (fun u => mem (u_id u) oids) (docs (User s))))))])) /\
    docs (User s1) = filter (fun u => negb (mem (u_id u) oids)) (docs (User s)) /\
    deleteUsersBulk req s1 = (s1, Ok (success 200 [("deleted", VNum 0)])).
Proof.
  intros Hb Hi Hc. unfold deleteUsersBulk. rewrite Hb. cbn [prop]. rewrite Hi.
  unfold User_deleteMany_in, on_User. rewrite Hc. cbn [fst snd bind].
  eexists. split; [reflexivity |]. split; [reflexivity |].
  cbn [User set_User with_docs docs schema fresh Admin].
  rewrite filter_mem_after_delete, filter_filter_same. reflexivity.
Qed.

(** ** From the header to the handler *)

Lemma split_first_word (w rest : string) :
  has_char " " w = false -> split " " (w ++ String " " rest) = w :: split " " rest.
Proof.
  induction w as [| c w IH]; cbn [has_char String.append split]; intros H.
  - reflexivity.
  - apply orb_false_iff in H as [Hc Hw]. rewrite Hc, (IH Hw). reflexivity.
Qed.

Lemma bearer_second_word (req : request) (w tok : string) :
  authorization req = Some (w ++ String " " tok) ->
  has_char " " w = false -> has_char " " tok = false ->
  bearer req = VStr tok.
Proof.
  intros Hh Hw Ht. unfold bearer.
  rewrite Hh, (split_first_word _ _ Hw), (split_without_separator _ _ Ht). reflexivity.
Qed.

(** X15. The gate reads the second word of the header and does not look
    at the first: a token the verifier accepts under [JWT_SECRET] opens
    every route of the user router after any scheme word, "Bearer" or
    another, and the handler runs with the decoded payload as [req.user]. *)
Theorem gate_accepts_token_after_any_scheme (req : request) (s : server)
        (rt : route) (ps : params) (scheme tok : string) (decoded : value) :
  routed req = Some (rt, ps) -> In rt userRoutes ->
  authorization req = Some (scheme ++ String " " tok) ->
  has_char " " scheme = false -> has_char " " tok = false -> tok <> "" ->
  jwt_verify tok JWT_SECRET = Ok decoded ->
  app req s =
  match handler_of (r_endpoint rt) ps (set_user req decoded) s with
  | (s', Ok r) => (s', [Verify tok; Enter (r_endpoint rt)], r)
  | (s', Throw err) =>
      (s', [Verify tok; Enter (r_endpoint rt); Translate err], errorHandler err)
  end.
Proof.
  intros Hr Hin Hh Hs Ht Hne Hv.
  apply (app_accepted _ s _ _ _ _ Hr Hin).
  split; [now apply (bearer_second_word req scheme) | now split].
Qed.

(** X17. A token found in the answer to a login, sent back as
    [Authorization: Bearer <token>], opens every route of the user router,
    provided the verifier accepts under [JWT_SECRET] what the signer issued
    under it: login signs and the gate verifies with the same secret. *)
Theorem login_token_opens_the_gate (login_req req : request) (s s' : server)
        (tok : string) (decoded : value) (rt : route) (ps : params) :
  is_login login_req ->
  prop "response" (json (snd (app login_req s))) "token" = Ok (VStr tok) ->
  (forall payload, jwt_sign payload JWT_SECRET "24h" = Ok tok ->
                   jwt_verify tok JWT_SECRET = Ok decoded) ->
  has_char " " tok = false -> tok <> "" ->
  routed req = Some (rt, ps) -> In rt userRoutes ->
  authorization req = Some ("Bearer " ++ tok) ->
  status (snd (app login_req s)) = 200 /\
  In (Enter (r_endpoint rt)) (snd (fst (app req s'))).
Proof.
  intros L Htok Hrt Hsp Hne Hr Hin Hh.
  assert (Hv : status (snd (app login_req s)) = 200 /\ jwt_verify tok JWT_SECRET = Ok decoded).
  { revert Htok. rewrite (app_login _ _ L). unfold login.
    destruct (prop "req.body" (body login_req) "email") as [email | e];
      cbn [bind snd json]; [| discriminate].
    destruct (prop "req.body" (body login_req) "password") as [password | e];
      cbn [bind snd json]; [| discriminate].
    destruct (negb (truthy email) || negb (truthy password)); [discriminate |].
    destruct (Admin_findOne_email email (Admin s)) as [[admin |] | e];
      cbn [bind snd json]; try discriminate.
    destruct (bcrypt_compare password (a_password admin)) as [[|] | e];
      cbn [bind snd json negb]; try discriminate.
    unfold token_for.
    destruct (jwt_sign _ JWT_SECRET "24h") as [tok0 | e] eqn:S; cbn [bind snd json];
      [| discriminate].
    cbn. intros [= <-]. split; [reflexivity | now apply (Hrt _ S)]. }
  destruct Hv as [H200 Hv]. split; [exact H200 |].
  assert (Ha : authenticated req tok decoded).
  { split; [| now split].
    apply (bearer_second_word req "Bearer" tok); [exact Hh | reflexivity | exact Hsp]. }
  rewrite (app_accepted _ s' _ _ _ _ Hr Hin Ha).
  destruct (handler_of (r_endpoint rt) ps (set_user req decoded) s') as [s2 [r | err]];
    cbn; tauto.
Qed.

(** ** Failures of the collaborators during login and registration *)

(** X18. When the email of a login resolves and the comparison throws
    (bcrypt rejects data that is not a string), the failure goes to the
    error translator: the answer is [errorHandler] of it, not the 401 of a
    wrong password, and the store is unchanged. *)
Theorem login_comparison_failure_is_translated (req : request) (s : server)
        (email password : value) (admin : AdminDoc) (e : error) :
  is_login req -> supplies req email password ->
  Admin_findOne_email email (Admin s) = Ok (Some admin) ->
  bcrypt_compare password (a_password admin) = Throw e ->
  app req s = (s, [Enter Login; Translate e], errorHandler e) /\
  (statusCode e = None -> status (snd (app req s)) = 500).
Proof.
  intros L (He & Hp & Te & Tp) Hf Hc.
  assert (E : app req s = (s, [Enter Login; Translate e], errorHandler e)).
  { rewrite (app_login _ _ L). unfold login.
    rewrite He, Hp. cbn [bind]. rewrite Te, Tp. cbn [negb orb].
    rewrite Hf. cbn [bind]. rewrite Hc. reflexivity. }
  split; [exact E |].
  intros Hs. rewrite E. unfold errorHandler. cbn [snd status]. now rewrite Hs.
Qed.

(** X19. Registration hashes before it creates: when hashing the password
    throws, as it does for a body without password, [Admin.create] is not
    reached, the store is unchanged and the failure is answered by the
    error translator. *)
Theorem register_hash_failure_creates_nothing (req : request) (s : server)
        (password : value) (e : error) :
  method req = POST -> path req = ["api"; "register"] ->
  prop "req.body" (body req) "password" = Ok password ->
  bcrypt_hash password 12 = Throw e ->
  app req s = (s, [Enter Register; Translate e], errorHandler e).
Proof.
  intros Hm Hp Hpw Hh. rewrite (app_register _ _ Hm Hp). unfold register.
  rewrite Hpw. cbn [bind]. rewrite Hh. reflexivity.
Qed.

(** ** Updating one user, continued *)

Lemma app_update_user (req : request) (s : server) (t : string) (decoded : value)
      (id : string) :
  method req = PUT -> path req = ["api"; "users"; id] -> id <> "" ->
  authenticated req t decoded ->
  app req s =
  match User_findByIdAndUpdate id (body req) (User s) with
  | (m', Ok (Some u)) =>
      (set_User s m', [Verify t; Enter UpdateUser], success 200 [("data", User_toObject u)])
  | (m', Ok None) =>
      (set_User s m', [Verify t; Enter UpdateUser; Translate NotFound], errorHandler NotFound)
  | (m', Throw e) =>
      (set_User s m', [Verify t; Enter UpdateUser; Translate e], errorHandler e)
  end.
Proof.
  intros Hm Hp Hid Ha.
  assert (Hr : routed req = Some (UpdateOneRoute, [("id", id)])).
  { unfold routed. rewrite Hp, Hm. cbn.
    destruct (String.eqb_spec id ""); [contradiction | reflexivity]. }
  rewrite (app_accepted _ s _ _ _ _ Hr UpdateOneRoute_registered Ha).
  cbn [UpdateOneRoute r_endpoint handler_of]. unfold updateUser, on_User.
  replace (param [("id", id)] "id") with id by reflexivity.
  cbn [body set_user].
  destruct (User_findByIdAndUpdate id (body req) (User s)) as [m' [[u |] | e]]; reflexivity.
Qed.


Lemma NoDup_map_injective {A B : Type} (g : A -> B) (l : list A) (x y : A) :
  NoDup (map g l) -> In x l -> In y l -> g x = g y -> x = y.
Proof.
  induction l as [| a l IH]; cbn [map In]; intros Hn Hx Hy E; [contradiction |].
  inversion Hn as [| ? ? Ha Hl]; subst.
  destruct Hx as [-> | Hx], Hy as [-> | Hy]; try reflexivity.
  - exfalso. apply Ha. rewrite E. now apply in_map.
  - exfalso. apply Ha. rewrite <- E. now apply in_map.
  - now apply IH.
Qed.

Lemma own_email_not_taken (m : UserModel) (u : UserDoc) :
  well_formed m -> In u (docs m) ->
  email_taken (u_email u) (Some (u_id u)) (docs m) = false.
Proof.
  intros W Hu. unfold email_taken.
  destruct (existsb _ (docs m)) eqn:X; [exfalso | reflexivity].
  apply existsb_exists in X as (d & Hd & H).
  apply andb_true_iff in H as [He Hi].
  apply String.eqb_eq in He. apply negb_true_iff, N.eqb_neq in Hi.
  apply Hi. f_equal.
  now apply (NoDup_map_injective u_email (docs m) d u (emails_distinct _ W)).
Qed.

(** X21. In a well-formed store, an authenticated [PUT /api/users/:id]
    with the body [{name: n}], [n] ASCII and not blank, for an id that resolves,
    answers 200 with the record as updated (the name trimmed, the other
    fields as before) and puts it in the place of the old one. *)
Theorem rename_one_user (req : request) (s : server) (t : string) (decoded : value)
        (id : string) (oid : ObjectId) (u : UserDoc) (n : string) :
  well_formed (User s) ->
  method req = PUT -> path req = ["api"; "users"; id] -> id <> "" ->
  authenticated req t decoded ->
  body req = VObj [("name", VStr n)] -> ascii_only n = true -> trim n <> "" ->
  castObjectId id = Ok oid -> lookup oid (docs (User s)) = Some u ->
  app req s =
  (set_User s (with_docs (User s) (replace (renamed u (trim n)) (docs (User s)))),
   [Verify t; Enter UpdateUser],
   success 200 [("data", User_toObject (renamed u (trim n)))]).
Proof.
  intros W Hm Hp Hid Ha Hb _ Hn Hc Hl.
  rewrite (app_update_user _ s _ _ _ Hm Hp Hid Ha).
  unfold User_findByIdAndUpdate. rewrite Hc, Hb. cbn [bind].
  unfold castUser. cbn [assoc String.eqb Ascii.eqb Bool.eqb].
  cbn [castString castNumber castDate bind field_map].
  unfold validated, validate. cbn [f_name f_email f_age required_fails].
  destruct (String.eqb_spec (trim n) "") as [E | _]; [contradiction |].
  cbn [List.app bind]. unfold updateOne. rewrite Hl.
  destruct (lookup_found _ _ _ Hl) as [Hu Eid].
  cbn [set_fields u_email f_email field_or].
  rewrite <- Eid, (own_email_not_taken _ _ W Hu). reflexivity.
Qed.

End FurtherProperties.

(** * The further properties on the concrete instance *)

Lemma demo_users_well_formed : well_formed (User demo_server).
Proof.
  constructor; cbn.
  - intros u [<- | []]. reflexivity.
  - repeat constructor. intros [].
  - repeat constructor. intros [].
  - intros u [<- | []]. reflexivity.
Qed.

(** X1 at a login that gives no password. *)
Lemma login_missing_field_is_bad_request_witness :
  demo_app (login_request (VObj [("email", VStr "root@x.com")])) demo_server
  = (demo_server, [Enter Login],
     {| status := 400;
        json := VObj [("success", VBool false);
                      ("message", VStr "Email and Password are required")] |}).
Proof.
  apply (@login_missing_field_is_bad_request demo
           (login_request (VObj [("email", VStr "root@x.com")])) demo_server
           (VStr "root@x.com") VUndefined
           (conj eq_refl eq_refl) eq_refl eq_refl (or_intror eq_refl)).
Defined.

(** X2 at the root admin with the right password. *)
Lemma login_success_hides_password_witness :
  exists data,
    demo_app (login_request (credentials "Root@x.com" "secret1")) demo_server
    = (demo_server, [Enter Login],
       {| status := 200;
          json := VObj [("success", VBool true);
                        ("message", VStr "Login Successful");
                        ("data", VObj data);
                        ("token", VStr "signed")] |}) /\
    assoc "password" data = None /\
    assoc "_id" data = Some (VStr "000000000000000000000007") /\
    assoc "email" data = Some (VStr "root@x.com").
Proof.
  apply (@login_success_hides_password demo
           (login_request (credentials "Root@x.com" "secret1")) demo_server
           (VStr "Root@x.com") (VStr "secret1") root "signed"
           (conj eq_refl eq_refl)
           (conj eq_refl (conj eq_refl (conj eq_refl eq_refl)))
           eq_refl eq_refl eq_refl).
Defined.

(** X3 at the registration of Eve. *)
Lemma register_stores_hash_and_hides_it_witness :
  exists data,
    demo_app (register_request (VObj [("name", VStr "Eve"); ("email", VStr "Eve@x.com");
                                      ("password", VStr "secret9")])) demo_server
    = (@mkServer demo (User demo_server) [root; eve], [Enter Register],
       {| status := 201;
          json := VObj [("success", VBool true); ("data", VObj data);
                        ("token", VStr "signed")] |}) /\
    assoc "password" data = None.
Proof.
  apply (proj2 (@register_stores_hash_and_hides_it demo
                  (register_request (VObj [("name", VStr "Eve"); ("email", VStr "Eve@x.com");
                                           ("password", VStr "secret9")]))
                  demo_server
                  [("name", VStr "Eve"); ("email", VStr "Eve@x.com");
                   ("password", VStr "secret9")]
                  (VStr "secret9") "hash:secret9" [root; eve] eve "signed"
                  eq_refl eq_refl eq_refl eq_refl eq_refl eq_refl eq_refl)).
Defined.

(** X4 at a login that carries a header. *)
Lemma credential_routes_ignore_authorization_witness :
  demo_app (request_of POST ["api"; "login"] (Some "Bearer old")
                       (credentials "root@x.com" "secret1")) demo_server
  = demo_app (login_request (credentials "root@x.com" "secret1")) demo_server.
Proof.
  apply (proj1 (@credential_routes_ignore_authorization demo
                  (request_of POST ["api"; "login"] (Some "Bearer old")
                              (credentials "root@x.com" "secret1"))
                  demo_server (mkRoute POST [Static "login"] false Login) []
                  eq_refl (or_intror (or_introl eq_refl)))).
Defined.

(** X5 at the search for "ob". *)
Lemma get_requests_leave_store_unchanged_witness :
  fst (fst (demo_app (search_request "ob") demo_server)) = demo_server.
Proof.
  apply (@get_requests_leave_store_unchanged demo (search_request "ob") demo_server eq_refl).
Defined.

(** X6 at [GET /api/login]: the login route answers [POST] only. *)
Lemma unmatched_request_is_unhandled_witness :
  demo_app (request_of GET ["api"; "login"] None VUndefined) demo_server
  = (demo_server, [], {| status := 404; json := VUndefined |}).
Proof.
  apply (@unmatched_request_is_unhandled demo
           (request_of GET ["api"; "login"] None VUndefined) demo_server eq_refl).
Defined.

(** X7 at the id of Bob, at an id that resolves to nothing, and at "xyz". *)
Lemma read_one_user_witness :
  demo_app (get_user_request bob_id) demo_server
  = (demo_server, [Verify "good"; Enter GetUser],
     {| status := 200;
        json := VObj [("success", VBool true); ("data", User_toObject bob)] |})
  /\
  demo_app (get_user_request "000000000000000000000009") demo_server
  = (demo_server, [Verify "good"; Enter GetUser; Translate NotFound],
     {| status := 404;
        json := VObj [("success", VBool false); ("error", VStr "User not found")] |})
  /\
  status (snd (demo_app (get_user_request "xyz") demo_server)) = 500.
Proof.
  split; [| split].
  - apply (proj1 (@read_one_user demo (get_user_request bob_id) demo_server
                    "good" good_token_payload bob_id
                    eq_refl eq_refl ltac:(discriminate) (demo_authenticated _ _ _))
                 1%N bob eq_refl eq_refl).
  - apply (proj1 (proj2 (@read_one_user demo (get_user_request "000000000000000000000009")
                           demo_server "good" good_token_payload "000000000000000000000009"
                           eq_refl eq_refl ltac:(discriminate) (demo_authenticated _ _ _)))
                 9%N eq_refl eq_refl).
  - destruct (proj2 (proj2 (@read_one_user demo (get_user_request "xyz")
                              demo_server "good" good_token_payload "xyz"
                              eq_refl eq_refl ltac:(discriminate) (demo_authenticated _ _ _)))
                    (CastError "ObjectId" "xyz" "_id") eq_refl) as (_ & E & H).
    rewrite <- H. unfold demo_app. now rewrite E.
Defined.

(** X12 at a batch whose second element has no name. *)
Lemma bulk_create_checks_then_appends_witness :
  exists e,
    demo_app (bulk_create_request
                [VObj [("name", VStr "Ann"); ("email", VStr "ann@x.com")];
                 VObj [("email", VStr "cy@x.com")]]) demo_server
    = (demo_server, [Verify "good"; Enter CreateUsersBulk; Translate e], errorHandler e) /\
    status (errorHandler e) = 500.
Proof.
  apply (proj1 (@bulk_create_checks_then_appends demo
                  (bulk_create_request
                     [VObj [("name", VStr "Ann"); ("email", VStr "ann@x.com")];
                      VObj [("email", VStr "cy@x.com")]])
                  demo_server "good" good_token_payload
                  [VObj [("name", VStr "Ann"); ("email", VStr "ann@x.com")];
                   VObj [("email", VStr "cy@x.com")]]
                  eq_refl eq_refl (demo_authenticated _ _ _) eq_refl)
               [("email", VStr "cy@x.com")]).
  - right. now left.
  - reflexivity.
Defined.

(** X14 at the handler of the bulk delete, called with Bob's id. *)
Lemma bulk_delete_handler_is_idempotent_witness :
  exists s1,
    @deleteUsersBulk demo delete_bulk_request demo_server
    = (s1, Ok (success 200 [("deleted", VNum 1)])) /\
    docs (User s1) = [] /\
    @deleteUsersBulk demo delete_bulk_request s1
    = (s1, Ok (success 200 [("deleted", VNum 0)])).
Proof.
  apply (@bulk_delete_handler_is_idempotent demo delete_bulk_request demo_server
           [("ids", VArr [VStr bob_id])] [VStr bob_id] [1%N] eq_refl eq_refl eq_refl).
Defined.

(** X15 at [GET /api/users] with the header "Token good". *)
Lemma gate_accepts_token_after_any_scheme_witness :
  demo_app (list_request "Token good") demo_server
  = (demo_server, [Verify "good"; Enter ListUsers],
     success 200 [("count", VNum 1); ("data", VArr [User_toObject bob])]).
Proof.
  apply (@gate_accepts_token_after_any_scheme demo (list_request "Token good") demo_server
           (mkRoute GET [Static "users"] true ListUsers) [] "Token" "good" good_token_payload
           eq_refl (or_intror (or_intror (or_introl eq_refl))) eq_refl eq_refl eq_refl
           ltac:(discriminate) eq_refl).
Defined.

(** X17 at the login of the root admin, whose token then lists the
    users. *)
Lemma login_token_opens_the_gate_witness :
  status (snd (@app issuing_demo (login_request (credentials "root@x.com" "secret1"))
                    issuing_server)) = 200 /\
  In (Enter ListUsers)
     (snd (fst (@app issuing_demo (list_request "Bearer good") issuing_server))).
Proof.
  apply (@login_token_opens_the_gate issuing_demo
           (login_request (credentials "root@x.com" "secret1"))
           (list_request "Bearer good") issuing_server issuing_server
           "good" good_token_payload (mkRoute GET [Static "users"] true ListUsers) []
           (conj eq_refl eq_refl) eq_refl (fun _ _ => eq_refl) eq_refl
           ltac:(discriminate) eq_refl
           (or_intror (or_intror (or_introl eq_refl))) eq_refl).
Defined.

(** X18 at a login of the root admin with a number for password. *)
Lemma login_comparison_failure_is_translated_witness :
  exists e,
    demo_app (login_request (VObj [("email", VStr "root@x.com"); ("password", VNum 123)]))
             demo_server
    = (demo_server, [Enter Login; Translate e], errorHandler e) /\
    status (errorHandler e) = 500.
Proof.
  exists (new_Error "data must be a string or Buffer and hash must be a string").
  split; [| reflexivity].
  apply (proj1 (@login_comparison_failure_is_translated demo
                  (login_request (VObj [("email", VStr "root@x.com");
                                        ("password", VNum 123)]))
                  demo_server (VStr "root@x.com") (VNum 123) root _
                  (conj eq_refl eq_refl)
                  (conj eq_refl (conj eq_refl (conj eq_refl eq_refl)))
                  eq_refl eq_refl)).
Defined.

(** X19 at a registration without password. *)
Lemma register_hash_failure_creates_nothing_witness :
  demo_app (register_request (VObj [("name", VStr "Eve"); ("email", VStr "eve@x.com")]))
           demo_server
  = (demo_server,
     [Enter Register; Translate (new_Error "data and salt arguments required")],
     errorHandler (new_Error "data and salt arguments required")).
Proof.
  apply (@register_hash_failure_creates_nothing demo
           (register_request (VObj [("name", VStr "Eve"); ("email", VStr "eve@x.com")]))
           demo_server VUndefined _ eq_refl eq_refl eq_refl eq_refl).
Defined.


(** X21 at the renaming of Bob to " Robert ". *)
Lemma rename_one_user_witness :
  (ascii_only " Robert " = true /\ trim " Robert " = "Robert") /\
  demo_app (put_user_request bob_id (VObj [("name", VStr " Robert ")])) demo_server
  = (set_User demo_server (with_docs (User demo_server) [renamed bob "Robert"]),
     [Verify "good"; Enter UpdateUser],
     success 200 [("data", User_toObject (renamed bob "Robert"))]).
Proof.
  split; [split; reflexivity |].
  apply (@rename_one_user demo (put_user_request bob_id (VObj [("name", VStr " Robert ")]))
           demo_server "good" good_token_payload bob_id 1%N bob " Robert "
           demo_users_well_formed eq_refl eq_refl ltac:(discriminate)
           (demo_authenticated _ _ _) eq_refl eq_refl ltac:(discriminate) eq_refl eq_refl).
Defined.

(** C1 at a login with the number 123 for password: the root admin's
    email is answered 500 by the store that holds the root admin and 401 by
    the store that holds no admin. *)
Lemma login_reveals_known_email_when_comparison_throws_witness :
  demo_app (login_request (VObj [("email", VStr "root@x.com"); ("password", VNum 123)]))
           demo_server_without_admins
  = (demo_server_without_admins, [Enter Login], InvalidCredential)
  /\
  demo_app (login_request (VObj [("email", VStr "root@x.com"); ("password", VNum 123)]))
           demo_server
  = (demo_server,
     [Enter Login;
      Translate (new_Error "data must be a string or Buffer and hash must be a string")],
     errorHandler (new_Error "data must be a string or Buffer and hash must be a string"))
  /\
  status (snd (demo_app (login_request (VObj [("email", VStr "root@x.com");
                                              ("password", VNum 123)]))
                        demo_server_without_admins)) = 401
  /\
  status (snd (demo_app (login_request (VObj [("email", VStr "root@x.com");
                                              ("password", VNum 123)]))
                        demo_server)) = 500.
Proof.
  apply (@login_reveals_known_email_when_comparison_throws demo
           (login_request (VObj [("email", VStr "root@x.com"); ("password", VNum 123)]))
           demo_server_without_admins demo_server
           (VStr "root@x.com") (VNum 123) root
           (new_Error "data must be a string or Buffer and hash must be a string")
           (conj eq_refl eq_refl)
           (conj eq_refl (conj eq_refl (conj eq_refl eq_refl)))
           eq_refl eq_refl eq_refl eq_refl).
Defined.

(** X8 at the creation of Ann followed by the renaming of Bob. *)
Lemma requests_keep_users_distinct_witness :
  NoDup (map u_id (docs (User (@serve demo
           [create_request 2000 "Ann" "ann@x.com";
            put_user_request bob_id (VObj [("name", VStr "Robert")])] demo_server)))) /\
  NoDup (map u_email (docs (User (@serve demo
           [create_request 2000 "Ann" "ann@x.com";
            put_user_request bob_id (VObj [("name", VStr "Robert")])] demo_server)))) /\
  (forall u,
      In u (docs (User (@serve demo
           [create_request 2000 "Ann" "ann@x.com";
            put_user_request bob_id (VObj [("name", VStr "Robert")])] demo_server))) ->
      toLowerCase (u_email u) = u_email u).
Proof.
  apply (@requests_keep_users_distinct demo
           [create_request 2000 "Ann" "ann@x.com";
            put_user_request bob_id (VObj [("name", VStr "Robert")])]
           demo_server demo_users_well_formed).
  repeat constructor.
Defined.

Lemma create_request_authenticated (served : Z) (name email : string) :
  @authenticated demo (create_request served name email) "good" good_token_payload.
Proof. split; [reflexivity | split; [discriminate | reflexivity]]. Qed.

(** X9 at the creation of Ann: the answer is 201, and her record is what
    the reading of the returned id answers. *)
Lemma create_then_read_witness :
  exists u s',
    demo_app (create_request 2000 "Ann" "ann@x.com") demo_server
    = (s', [Verify "good"; Enter CreateUser], success 201 [("data", User_toObject u)]) /\
    docs (User s') = (docs (User demo_server) ++ [u])%list /\
    forall (get : request) (t' : string) (decoded' : value),
      method get = GET -> path get = ["api"; "users"; ObjectId_toString (u_id u)] ->
      @authenticated demo get t' decoded' ->
      @app demo get s' = (s', [Verify t'; Enter GetUser],
                          success 200 [("data", User_toObject u)]).
Proof.
  destruct (@create_then_read demo (create_request 2000 "Ann" "ann@x.com") demo_server
              "good" good_token_payload [("name", VStr "Ann"); ("email", VStr "ann@x.com")]
              demo_users_well_formed eq_refl eq_refl eq_refl
              (create_request_authenticated _ _ _) eq_refl eq_refl)
    as [(e & He & _) | H].
  - exfalso.
    assert (E : @app demo (create_request 2000 "Ann" "ann@x.com") demo_server
                = (set_User demo_server demo_users_with_ann, [Verify "good"; Enter CreateUser],
                   success 201 [("data", User_toObject ann)])) by reflexivity.
    rewrite E in He. discriminate He.
  - exact H.
Defined.

(** X10 at a second user with Bob's email in capitals. *)
Lemma duplicate_email_is_rejected_witness :
  (ascii_only "Bobby" = true /\ ascii_only "B@X.com" = true /\
   In bob (docs (User demo_server)) /\ u_email bob = toLowerCase "B@X.com") /\
  demo_app (create_request 2000 "Bobby" "B@X.com") demo_server
  = (demo_server,
     [Verify "good"; Enter CreateUser; Translate (DuplicateKeyError "b@x.com")],
     errorHandler (DuplicateKeyError "b@x.com")) /\
  status (errorHandler (DuplicateKeyError "b@x.com")) = 500.
Proof.
  split; [repeat split; now left |].
  apply (@duplicate_email_is_rejected demo (create_request 2000 "Bobby" "B@X.com")
           demo_server "good" good_token_payload "Bobby" "B@X.com" bob
           eq_refl eq_refl (create_request_authenticated _ _ _) eq_refl eq_refl eq_refl
           ltac:(discriminate) ltac:(discriminate) (or_introl eq_refl) eq_refl).
Defined.

(** X11 at the creation of a user from a padded name and a capitalised
    email. *)
Lemma created_user_meets_schema_witness :
  modelled_body (body (create_request 2000 "  Ann " "Ann@X.com")) = true /\
  exists u,
    snd (demo_app (create_request 2000 "  Ann " "Ann@X.com") demo_server)
    = success 201 [("data", User_toObject u)] /\
    In u (docs (User (fst (fst (demo_app (create_request 2000 "  Ann " "Ann@X.com")
                                         demo_server))))) /\
    u_name u <> "" /\ u_email u <> "" /\ toLowerCase (u_email u) = u_email u /\
    (forall a, u_age u = Some a -> 0 <= a) /\
    (forall n, assoc "name" [("name", VStr "  Ann "); ("email", VStr "Ann@X.com")]
               = Some (VStr n) -> u_name u = trim n) /\
    (forall e, assoc "email" [("name", VStr "  Ann "); ("email", VStr "Ann@X.com")]
               = Some (VStr e) -> u_email u = toLowerCase e).
Proof.
  split; [reflexivity |].
  apply (@created_user_meets_schema demo (create_request 2000 "  Ann " "Ann@X.com")
           demo_server "good" good_token_payload
           [("name", VStr "  Ann "); ("email", VStr "Ann@X.com")] eq_refl eq_refl
           (create_request_authenticated _ _ _) eq_refl eq_refl eq_refl).
Defined.

(** X16 at the renaming of Bob in the store that also holds Ann: Ann's
    record is in the collection afterwards as it was, and the ids are those
    of Bob and Ann, in that order. *)
Lemma update_one_touches_only_its_record_witness :
  map u_id (docs (User (fst (fst (demo_app (put_user_request bob_id
                                              (VObj [("name", VStr "Robert")]))
                                           demo_server_with_ann)))))
  = [1%N; 2%N]
  /\
  In ann (docs (User (fst (fst (demo_app (put_user_request bob_id
                                            (VObj [("name", VStr "Robert")]))
                                         demo_server_with_ann))))).
Proof.
  destruct (@update_one_touches_only_its_record demo
              (put_user_request bob_id (VObj [("name", VStr "Robert")]))
              demo_server_with_ann "good" good_token_payload bob_id
              eq_refl eq_refl ltac:(discriminate) (demo_authenticated _ _ _)) as [Hids Hframe].
  split; [exact Hids |].
  apply (Hframe ann); [right; now left | discriminate].
Defined.
